(** * andres::hdf5 -- a thin convenience layer over the HDF5 C library

    Embedding of [include/andres/hdf5/hdf5.hxx].  Every function of the
    header is a short sequence of calls into the HDF5 library with the
    return codes turned into [std::runtime_error]s.  The functions are
    embedded as programs over the library calls they issue ([h5prog]);
    a program is run against a handler that gives each call its answer
    and its effect on the library's state. *)

From Stdlib Require Import ZArith NArith String Ascii List Lia.
From stdpp Require Import base tactics option list strings gmap fin_maps.

Local Open Scope Z_scope.

(** ** Types of the C interface *)

(** [hid_t] is a signed 64-bit identifier, [herr_t] an [int]; a negative
    value reports failure.  [hsize_t] is an unsigned 64-bit count; the
    only value ever stored in one is the size of a vector in memory. *)
Abbreviation hid_t := Z (only parsing).
Abbreviation herr_t := Z (only parsing).
Abbreviation hsize_t := N (only parsing).

Inductive FileAccessMode := READ_ONLY | READ_WRITE.
Inductive HDF5Version := HDF5_VERSION_DEFAULT | HDF5_VERSION_LATEST.

(** The template argument [T] of [HDF5Type], [save] and [load].  The
    first thirteen constructors are the types with a specialization of
    [HDF5Type]; the others stand for the types that reach the primary
    template.  [HDF5Type<bool>] instantiates like any other, but
    [save<bool>] and [load<bool>] do not ([std::vector<bool>] has no
    [data()]); [signed char], [wchar_t] and class types do. *)
Inductive cxx_type :=
| t_char | t_unsigned_char
| t_short | t_unsigned_short
| t_int | t_unsigned_int
| t_long | t_unsigned_long
| t_long_long | t_unsigned_long_long
| t_float | t_double | t_long_double
| t_signed_char | t_bool | t_wchar_t
| t_class (name : string).

(** The [H5T_NATIVE_*] macros the header mentions.  [hid_t type()]
    returns the value of one of them; the values come from [hdf5.h] at
    run time, so the embedding keeps the name of the macro.  Two names
    need not stand for two different values. *)
Inductive native_tag :=
| H5T_NATIVE_CHAR | H5T_NATIVE_UCHAR
| H5T_NATIVE_SHORT | H5T_NATIVE_USHORT
| H5T_NATIVE_INT | H5T_NATIVE_UINT
| H5T_NATIVE_LONG | H5T_NATIVE_ULONG
| H5T_NATIVE_LLONG | H5T_NATIVE_ULLONG
| H5T_NATIVE_FLOAT | H5T_NATIVE_DOUBLE | H5T_NATIVE_LDOUBLE.

Global Instance native_tag_eq_dec : EqDecision native_tag.
Proof. solve_decision. Defined.

(** Constants of [hdf5.h] used by the header. *)
Inductive file_flag := H5F_ACC_RDONLY | H5F_ACC_RDWR | H5F_ACC_TRUNC.
Inductive plist_class := H5P_FILE_ACCESS.
Inductive libver := H5F_LIBVER_EARLIEST | H5F_LIBVER_LATEST.
Definition H5P_DEFAULT : Z := 0.
Definition H5S_ALL : Z := 0.

(** ** Exceptions *)

Inductive exn := runtime_error (what : string).

Definition what (e : exn) : string := match e with runtime_error m => m end.

Inductive outcome (A : Type) :=
| Ok (a : A)
| Throw (e : exn).
Arguments Ok {A} a.
Arguments Throw {A} e.

(** The error kinds of the specification; the header itself throws
    [std::runtime_error] everywhere and the kinds are told apart by the
    message. *)
Inductive error_kind :=
| CreationError | OpenError | ShapeError
| WriteError | ReadError | ConfigurationError.

Global Instance error_kind_eq_dec : EqDecision error_kind.
Proof. solve_decision. Defined.

Definition msg_not_implemented : string :=
  "conversion of this type to HDF5 type not implemented.".
Definition msg_create_file : string := "Could not create HDF5 file: ".
Definition msg_open_file : string := "Could not open HDF5 file: ".
Definition msg_create_group : string := "Could not create HDF5 group.".
Definition msg_open_group : string := "Could not open HDF5 group.".
Definition msg_create_dataspace : string := "could not create HDF5 dataspace.".
Definition msg_create_dataset : string := "could not create HDF5 dataset.".
Definition msg_write : string := "could not write to HDF5 dataset.".
Definition msg_open_dataset : string := "could not open HDF5 dataset.".
Definition msg_not_1d : string := "HDF5 dataset is not one-dimensional.".
Definition msg_shape : string := "could not get shape of HDF5 dataset.".
Definition msg_read : string := "could not read from HDF5 dataset 'points'.".

Definition kind_table : list (string * error_kind) :=
  [ (msg_not_implemented, ConfigurationError);
    (msg_create_file, CreationError);
    (msg_open_file, OpenError);
    (msg_create_group, CreationError);
    (msg_open_group, OpenError);
    (msg_create_dataspace, ShapeError);
    (msg_create_dataset, CreationError);
    (msg_write, WriteError);
    (msg_open_dataset, OpenError);
    (msg_not_1d, ShapeError);
    (msg_shape, ShapeError);
    (msg_read, ReadError) ].

Fixpoint starts_with (p m : string) : bool :=
  match p, m with
  | EmptyString, _ => true
  | String a p', String b m' => Ascii.eqb a b && starts_with p' m'
  | String _ _, EmptyString => false
  end.

Fixpoint classify_in (tbl : list (string * error_kind)) (m : string)
  : option error_kind :=
  match tbl with
  | [] => None
  | (p, k) :: tbl' => if starts_with p m then Some k else classify_in tbl' m
  end.

Definition classify (e : exn) : option error_kind :=
  classify_in kind_table (what e).
Arguments classify : simpl never.

Definition has_message (m : string) (e : exn) : bool := String.eqb (what e) m.
Arguments has_message : simpl never.

(** The outcome of a function that answers a handle: a handle that is
    not negative, or an exception with the property [P]. *)
Definition valid_or (P : exn → Prop) (r : outcome Z) : Prop :=
  match r with
  | Ok h => 0 ≤ h
  | Throw e => P e
  end.

(** ** The type-tag table: [HDF5Type<T>::type()] *)

Definition HDF5Type_type (T : cxx_type) : outcome native_tag :=
  match T with
  | t_char => Ok H5T_NATIVE_CHAR
  | t_unsigned_char => Ok H5T_NATIVE_UCHAR
  | t_short => Ok H5T_NATIVE_SHORT
  | t_unsigned_short => Ok H5T_NATIVE_USHORT
  | t_int => Ok H5T_NATIVE_INT
  | t_unsigned_int => Ok H5T_NATIVE_UINT
  | t_long => Ok H5T_NATIVE_LONG
  | t_unsigned_long => Ok H5T_NATIVE_ULONG
  | t_long_long => Ok H5T_NATIVE_LLONG
  | t_unsigned_long_long => Ok H5T_NATIVE_ULLONG
  | t_float => Ok H5T_NATIVE_FLOAT
  | t_double => Ok H5T_NATIVE_DOUBLE
  | t_long_double => Ok H5T_NATIVE_LDOUBLE
  | _ => Throw (runtime_error msg_not_implemented)
  end.

(** The thirteen types [HDF5Type] is specialized for: the types that
    have a tag. *)
Definition listed_supported (T : cxx_type) : bool :=
  match T with
  | t_char | t_unsigned_char | t_short | t_unsigned_short
  | t_int | t_unsigned_int | t_long | t_unsigned_long
  | t_long_long | t_unsigned_long_long
  | t_float | t_double | t_long_double => true
  | _ => false
  end.

(** Modelled from the spec: the scalar types the specification lists as
    supported -- the 8/16/32/64-bit signed and unsigned integers and the
    single, double and extended precision floating-point types.  Among
    the C++ types these are the signed integer types [signed char]
    ([int8_t]), [short], [int], [long], [long long], their unsigned
    counterparts, the 8-bit integer [char], and the three floating-point
    types. *)
Definition spec_listed (T : cxx_type) : bool :=
  match T with
  | t_signed_char | t_char | t_unsigned_char
  | t_short | t_unsigned_short
  | t_int | t_unsigned_int
  | t_long | t_unsigned_long
  | t_long_long | t_unsigned_long_long
  | t_float | t_double | t_long_double => true
  | t_bool | t_wchar_t | t_class _ => false
  end.

(** Modelled from the spec: the C type each engine tag stands for, as
    the engine documents its native tags ([hdf5.h] is not part of the
    repository). *)
Definition tag_c_type (t : native_tag) : cxx_type :=
  match t with
  | H5T_NATIVE_CHAR => t_char
  | H5T_NATIVE_UCHAR => t_unsigned_char
  | H5T_NATIVE_SHORT => t_short
  | H5T_NATIVE_USHORT => t_unsigned_short
  | H5T_NATIVE_INT => t_int
  | H5T_NATIVE_UINT => t_unsigned_int
  | H5T_NATIVE_LONG => t_long
  | H5T_NATIVE_ULONG => t_unsigned_long
  | H5T_NATIVE_LLONG => t_long_long
  | H5T_NATIVE_ULLONG => t_unsigned_long_long
  | H5T_NATIVE_FLOAT => t_float
  | H5T_NATIVE_DOUBLE => t_double
  | H5T_NATIVE_LDOUBLE => t_long_double
  end.

(** ** Library calls and programs over them *)

Section Wrapper.

(** [V] is the representation of one element of a [std::vector<T>];
    [V0] is the value-initialized element [T()] that [resize] appends. *)
Context {V : Type} (V0 : V).

(** One constructor per HDF5 function the header calls; the index is the
    type of the answer.  Output parameters are part of the answer:
    [H5Sget_simple_extent_dims] answers the status and the extents it
    wrote through [dims], [H5Dread] the status and the contents of the
    buffer after the call. *)
Inductive call : Type → Type :=
| H5Pcreate (cls : plist_class) : call hid_t
| H5Pset_libver_bounds (plist : hid_t) (low high : libver) : call herr_t
| H5Fcreate (filename : string) (flags : file_flag) (fcpl fapl : hid_t)
  : call hid_t
| H5Fopen (filename : string) (flags : file_flag) (fapl : hid_t) : call hid_t
| H5Fclose (file : hid_t) : call herr_t
| H5Gcreate (loc : hid_t) (name : string) (lcpl gcpl gapl : hid_t)
  : call hid_t
| H5Gopen (loc : hid_t) (name : string) (gapl : hid_t) : call hid_t
| H5Gclose (group : hid_t) : call herr_t
| H5Screate_simple (rank : Z) (dims : list hsize_t)
    (maxdims : option (list hsize_t)) : call hid_t
| H5Sget_simple_extent_ndims (space : hid_t) : call Z
| H5Sget_simple_extent_dims (space : hid_t) : call (herr_t * list hsize_t)
| H5Sclose (space : hid_t) : call herr_t
| H5Dcreate (loc : hid_t) (name : string) (type : native_tag)
    (space lcpl dcpl dapl : hid_t) : call hid_t
| H5Dopen (loc : hid_t) (name : string) (dapl : hid_t) : call hid_t
| H5Dget_type (dset : hid_t) : call hid_t
| H5Dget_space (dset : hid_t) : call hid_t
| H5Dwrite (dset : hid_t) (memtype : native_tag)
    (memspace filespace xfer : hid_t) (buf : list V) : call herr_t
| H5Dread (dset : hid_t) (memtype : native_tag)
    (memspace filespace xfer : hid_t) (buf : list V)
  : call (herr_t * list V)
| H5Dclose (dset : hid_t) : call herr_t
| H5Tclose (type : hid_t) : call herr_t.

Inductive h5prog (A : Type) : Type :=
| Ret (a : A)
| Call {X : Type} (c : call X) (k : X → h5prog A).
Arguments Ret {A} a.
Arguments Call {A X} c k.

Fixpoint bind {A B} (p : h5prog A) (f : A → h5prog B) : h5prog B :=
  match p with
  | Ret a => f a
  | Call c k => Call c (λ x, bind (k x) f)
  end.

#[global] Instance h5prog_ret : MRet h5prog := @Ret.
#[global] Instance h5prog_bind : MBind h5prog := λ A B f p, bind p f.

Definition perform {X} (c : call X) : h5prog X := Call c Ret.

(** A handler gives every call its answer and the state after it. *)
Definition handler (E : Type) : Type := ∀ X, call X → E → X * E.

Fixpoint run {E A} (eng : handler E) (p : h5prog A) (s : E) : A * E :=
  match p with
  | Ret a => (a, s)
  | Call c k => let '(x, s') := eng _ c s in run eng (k x) s'
  end.

(** The calls a run issues, in order, each with its answer. *)
Inductive event : Type :=
| Ev {X : Type} (c : call X) (x : X).

Fixpoint trace {E A} (eng : handler E) (p : h5prog A) (s : E) : list event :=
  match p with
  | Ret _ => []
  | Call c k => let '(x, s') := eng _ c s in Ev c x :: trace eng (k x) s'
  end.

(** ** The functions of the header

    A function that returns [R] or throws is a program with answer
    [outcome R].  [load] writes through its reference parameter [data];
    its answer pairs the outcome with the contents of [data] when the
    call is left, by return or by exception.  Default arguments
    ([hdf5version = HDF5_VERSION_DEFAULT], [fileAccessMode = READ_ONLY])
    are supplied by the caller. *)

Definition throw {A} (m : string) : h5prog (outcome A) :=
  Ret (Throw (runtime_error m)).

(** [std::vector<T>::resize], when it does not throw. *)
Definition resize (n : nat) (l : list V) : list V :=
  take n l ++ replicate (n - length l)%nat V0.

(** The first lines of [createFile] and [openFile]: the file access
    property list for the requested format version. *)
Definition version_plist (hdf5version : HDF5Version) : h5prog hid_t :=
  match hdf5version with
  | HDF5_VERSION_LATEST =>
      version ← perform (H5Pcreate H5P_FILE_ACCESS);
      _ ← perform (H5Pset_libver_bounds version
                     H5F_LIBVER_LATEST H5F_LIBVER_LATEST);
      mret version
  | HDF5_VERSION_DEFAULT => mret H5P_DEFAULT
  end.

Definition createFile (filename : string) (hdf5version : HDF5Version)
  : h5prog (outcome hid_t) :=
  version ← version_plist hdf5version;
  fileHandle ← perform (H5Fcreate filename H5F_ACC_TRUNC H5P_DEFAULT version);
  if fileHandle <? 0 then throw (msg_create_file +:+ filename)
  else mret (Ok fileHandle).

Definition openFile (filename : string) (fileAccessMode : FileAccessMode)
    (hdf5version : HDF5Version) : h5prog (outcome hid_t) :=
  let access := match fileAccessMode with
                | READ_WRITE => H5F_ACC_RDWR
                | READ_ONLY => H5F_ACC_RDONLY
                end in
  version ← version_plist hdf5version;
  fileHandle ← perform (H5Fopen filename access version);
  if fileHandle <? 0 then throw (msg_open_file +:+ filename)
  else mret (Ok fileHandle).

Definition closeFile (handle : hid_t) : h5prog (outcome unit) :=
  _ ← perform (H5Fclose handle);
  mret (Ok tt).

Definition createGroup (parentHandle : hid_t) (groupName : string)
  : h5prog (outcome hid_t) :=
  groupHandle ← perform (H5Gcreate parentHandle groupName
                           H5P_DEFAULT H5P_DEFAULT H5P_DEFAULT);
  if groupHandle <? 0 then throw msg_create_group
  else mret (Ok groupHandle).

Definition openGroup (parentHandle : hid_t) (groupName : string)
  : h5prog (outcome hid_t) :=
  groupHandle ← perform (H5Gopen parentHandle groupName H5P_DEFAULT);
  if groupHandle <? 0 then throw msg_open_group
  else mret (Ok groupHandle).

Definition closeGroup (handle : hid_t) : h5prog (outcome unit) :=
  _ ← perform (H5Gclose handle);
  mret (Ok tt).

(** [typeMemory.type()] is evaluated among the arguments of [H5Dcreate],
    after the dataspace exists; when it throws the exception leaves
    [save] at that point. *)
Definition save (T : cxx_type) (parentHandle : hid_t) (datasetName : string)
    (data : list V) : h5prog (outcome unit) :=
  let shape := [N.of_nat (length data)] in
  dataspace ← perform (H5Screate_simple 1 shape None);
  if dataspace <? 0 then throw msg_create_dataspace else
  match HDF5Type_type T with
  | Throw e => mret (Throw e)
  | Ok typeMemory =>
      dataset ← perform (H5Dcreate parentHandle datasetName typeMemory
                           dataspace H5P_DEFAULT H5P_DEFAULT H5P_DEFAULT);
      if dataset <? 0 then
        _ ← perform (H5Sclose dataspace);
        throw msg_create_dataset
      else
        status ← perform (H5Dwrite dataset typeMemory
                            H5S_ALL H5S_ALL H5P_DEFAULT data);
        if status <? 0 then
          _ ← perform (H5Dclose dataset);
          _ ← perform (H5Sclose dataspace);
          throw msg_write
        else mret (Ok tt)
  end.

(** [size] starts at 0 and is overwritten by the first extent the
    library writes through [&size].  This embedding covers the calls in
    which [data.resize(size)] takes the count as it is and does not
    throw; [load_with_resize] below adds the conversion to [size_t] and
    the exit by exception from [resize]. *)
Definition load (T : cxx_type) (parentHandle : hid_t) (datasetName : string)
    (data : list V) : h5prog (outcome unit * list V) :=
  dataset ← perform (H5Dopen parentHandle datasetName H5P_DEFAULT);
  if dataset <? 0 then mret (Throw (runtime_error msg_open_dataset), data) else
  typeFile ← perform (H5Dget_type dataset);
  filespace ← perform (H5Dget_space dataset);
  dimension ← perform (H5Sget_simple_extent_ndims filespace);
  if negb (dimension =? 1) then
    mret (Throw (runtime_error msg_not_1d), data)
  else
  '(status, written) ← perform (H5Sget_simple_extent_dims filespace);
  let size := match written with d :: _ => d | [] => 0%N end in
  if status <? 0 then
    _ ← perform (H5Dclose dataset);
    _ ← perform (H5Tclose typeFile);
    _ ← perform (H5Sclose filespace);
    mret (Throw (runtime_error msg_shape), data)
  else
  let data := resize (N.to_nat size) data in
  match HDF5Type_type T with
  | Throw e => mret (Throw e, data)
  | Ok typeMemory =>
      '(status, data) ← perform (H5Dread dataset typeMemory
                                   H5S_ALL H5S_ALL H5P_DEFAULT data);
      _ ← perform (H5Dclose dataset);
      _ ← perform (H5Tclose typeFile);
      _ ← perform (H5Sclose filespace);
      if status <? 0 then mret (Throw (runtime_error msg_read), data)
      else mret (Ok tt, data)
  end.

End Wrapper.

Arguments Ret {V A} a.
Arguments Call {V A X} c k.
Arguments Ev {V X} c x.

(** ** [load] with the exits of [std::vector::resize]

    [data.resize(size)] converts the [hsize_t] count to [size_t] and
    throws when the vector cannot take that many elements:
    [std::length_error] above [max_size()], [std::bad_alloc] when the
    allocation fails.  Either exception leaves the vector as it was. *)

Inductive resize_exn := std_length_error | std_bad_alloc.

(** How a call of [load] ends: by return, by one of the header's own
    [std::runtime_error]s, or by an exception out of [resize]. *)
Inductive load_exit :=
| Returned
| Thrown (e : exn)
| ResizeThrown (r : resize_exn).

Section VectorResize.
Context {V : Type} (V0 : V).

(** The platform: the width of [size_t], [std::vector<T>::max_size()],
    and whether the allocator has room for a given number of elements
    when [resize] asks. *)
Context (size_t_bits : N) (max_size : N) (alloc_ok : N → bool).

(** Conversion of an unsigned count to [size_t]. *)
Definition to_size_t (x : N) : N := (x mod 2 ^ size_t_bits)%N.

(** [resize] to a count the vector already has room for changes the
    length in place; growing beyond checks the count against
    [max_size()] and then allocates.  The capacity is not tracked: the
    vector has room for its current size only. *)
Definition vector_resize (n : N) (data : list V) : list V + resize_exn :=
  if (n <=? N.of_nat (length data))%N then inl (resize V0 (N.to_nat n) data)
  else if (max_size <? n)%N then inr std_length_error
  else if alloc_ok n then inl (resize V0 (N.to_nat n) data)
  else inr std_bad_alloc.

Definition load_with_resize (T : cxx_type) (parentHandle : hid_t)
    (datasetName : string) (data : list V) : h5prog (load_exit * list V) :=
  dataset ← perform (H5Dopen parentHandle datasetName H5P_DEFAULT);
  if dataset <? 0 then mret (Thrown (runtime_error msg_open_dataset), data) else
  typeFile ← perform (H5Dget_type dataset);
  filespace ← perform (H5Dget_space dataset);
  dimension ← perform (H5Sget_simple_extent_ndims filespace);
  if negb (dimension =? 1) then
    mret (Thrown (runtime_error msg_not_1d), data)
  else
  '(status, written) ← perform (H5Sget_simple_extent_dims filespace);
  let size := match written with d :: _ => d | [] => 0%N end in
  if status <? 0 then
    _ ← perform (H5Dclose dataset);
    _ ← perform (H5Tclose typeFile);
    _ ← perform (H5Sclose filespace);
    mret (Thrown (runtime_error msg_shape), data)
  else
  match vector_resize (to_size_t size) data with
  | inr r => mret (ResizeThrown r, data)
  | inl data =>
      match HDF5Type_type T with
      | Throw e => mret (Thrown e, data)
      | Ok typeMemory =>
          '(status, data) ← perform (H5Dread dataset typeMemory
                                       H5S_ALL H5S_ALL H5P_DEFAULT data);
          _ ← perform (H5Dclose dataset);
          _ ← perform (H5Tclose typeFile);
          _ ← perform (H5Sclose filespace);
          if status <? 0 then mret (Thrown (runtime_error msg_read), data)
          else mret (Returned, data)
      end
  end.

End VectorResize.

(** ** Descriptor accounting

    The identifiers a function obtains for its own use are dataspace,
    dataset and datatype descriptors.  A call that answers a
    non-negative identifier acquires it; [H5Sclose], [H5Dclose] and
    [H5Tclose] hand it back (the header never looks at their status). *)

Section Accounting.
Context {V : Type}.

Definition nonneg_id (r : hid_t) : option hid_t :=
  if r <? 0 then None else Some r.

Definition acquires {X} (c : @call V X) : X → option hid_t :=
  match c in call X return X → option hid_t with
  | H5Screate_simple _ _ _ => nonneg_id
  | H5Dcreate _ _ _ _ _ _ _ => nonneg_id
  | H5Dopen _ _ _ => nonneg_id
  | H5Dget_type _ => nonneg_id
  | H5Dget_space _ => nonneg_id
  | _ => λ _, None
  end.

Definition releases {X} (c : @call V X) : option hid_t :=
  match c with
  | H5Sclose h | H5Dclose h | H5Tclose h => Some h
  | _ => None
  end.

Fixpoint remove_first (h : hid_t) (held : list hid_t) : list hid_t :=
  match held with
  | [] => []
  | h' :: held' => if decide (h = h') then held' else h' :: remove_first h held'
  end.

Definition account (held : list hid_t) (e : @event V) : list hid_t :=
  match e with
  | Ev c x =>
      match acquires c x, releases c with
      | Some h, _ => h :: held
      | None, Some h => remove_first h held
      | None, None => held
      end
  end.

(** The descriptors acquired and not handed back when the log ends. *)
Definition outstanding (log : list (@event V)) : list hid_t :=
  fold_left account log [].

End Accounting.

(** ** A reference storage engine

    The HDF5 library is not part of the repository.  The claims that
    depend on what the library answers (what a stored entry holds, which
    names exist, which handles may be written through) are settled
    against the engine below. *)

Section Reference.
Context {V : Type} (V0 : V).

(** How the engine presents values stored under one tag to a buffer of
    another tag; the header never checks that the tags agree. *)
Context (reinterpret : native_tag → native_tag → list V → list V).

(** Modelled from the spec: what an open identifier of the engine refers
    to -- a property list, a container file with its access mode, a
    group, a shape description, a type descriptor or a stored entry. *)
Inductive hobj :=
| HPlist (latest : bool)
| HFile (root : N) (rw : bool)
| HGroup (g : N) (rw : bool)
| HSpace (dims : list N)
| HType (t : native_tag)
| HDataset (d : N) (rw : bool).

(** Modelled from the spec: the objects inside a container -- a group
    holding named links, or a typed, shaped array of raw values. *)
Inductive obj :=
| OGroup (links : gmap string N)
| ODataset (type : native_tag) (dims : list N) (data : list V).

(** Modelled from the spec: the state of the engine -- the container
    files by name, the stored objects by address, the open identifiers,
    the next free identifier and address, and whether raw transfers to
    the storage medium currently succeed. *)
Record h5state := H5State {
  files : gmap string N;
  objs : gmap N obj;
  handles : gmap Z hobj;
  next_id : Z;
  next_addr : N;
  io_ok : bool
}.

Definition set_handles (f : gmap Z hobj → gmap Z hobj) (s : h5state) :=
  H5State (files s) (objs s) (f (handles s)) (next_id s) (next_addr s)
          (io_ok s).

Definition set_objs (f : gmap N obj → gmap N obj) (s : h5state) :=
  H5State (files s) (f (objs s)) (handles s) (next_id s) (next_addr s)
          (io_ok s).

(** Modelled from the spec: a successful open or create answers a fresh
    non-negative identifier. *)
Definition open_id (o : hobj) (s : h5state) : Z * h5state :=
  (next_id s,
   H5State (files s) (objs s) (<[next_id s := o]> (handles s))
           (next_id s + 1) (next_addr s) (io_ok s)).

(** Modelled from the spec: storing a new object at a fresh address. *)
Definition store_new (o : obj) (s : h5state) : N * h5state :=
  (next_addr s,
   H5State (files s) (<[next_addr s := o]> (objs s)) (handles s)
           (next_id s) (next_addr s + 1)%N (io_ok s)).

(** Modelled from the spec: a close releases an identifier of the right
    kind and reports failure for anything else. *)
Definition close_id (kind : hobj → bool) (h : Z) (s : h5state)
  : Z * h5state :=
  match handles s !! h with
  | Some o => if kind o then (0, set_handles (delete h) s) else (-1, s)
  | None => (-1, s)
  end.

Definition is_plist o := match o with HPlist _ => true | _ => false end.
Definition is_file o := match o with HFile _ _ => true | _ => false end.
Definition is_group o := match o with HGroup _ _ => true | _ => false end.
Definition is_space o := match o with HSpace _ => true | _ => false end.
Definition is_type o := match o with HType _ => true | _ => false end.
Definition is_dataset o := match o with HDataset _ _ => true | _ => false end.

(** Modelled from the spec: the group a file or group identifier stands
    for, with the access mode it was opened under. *)
Definition location (s : h5state) (h : Z) : option (N * bool) :=
  match handles s !! h with
  | Some (HFile a rw) | Some (HGroup a rw) => Some (a, rw)
  | _ => None
  end.

Definition links_of (s : h5state) (a : N) : option (gmap string N) :=
  match objs s !! a with
  | Some (OGroup l) => Some l
  | _ => None
  end.

(** Modelled from the spec: the array stored at an address, and the
    address a name denotes under a location when it denotes an array. *)
Definition stored (s : h5state) (d : N)
  : option (native_tag * list N * list V) :=
  match objs s !! d with
  | Some (ODataset ty dims data) => Some (ty, dims, data)
  | _ => None
  end.

Definition find_entry (s : h5state) (loc : Z) (name : string)
  : option (N * bool) :=
  match location s loc with
  | Some (a, rw) =>
      match links_of s a with
      | Some l =>
          match l !! name with
          | Some d => match stored s d with
                      | Some _ => Some (d, rw)
                      | None => None
                      end
          | None => None
          end
      | None => None
      end
  | None => None
  end.

Definition fapl_ok (s : h5state) (fapl : Z) : bool :=
  if decide (fapl = H5P_DEFAULT) then true
  else match handles s !! fapl with
       | Some (HPlist _) => true
       | _ => false
       end.

(** Number of elements of a shape. *)
Definition extent (dims : list N) : nat :=
  N.to_nat (foldr N.mul 1%N dims).

(** A raw transfer fills the destination from its start and never
    changes its length. *)
Definition overwrite (dst src : list V) : list V :=
  take (length dst) (src ++ drop (length src) dst).

Definition as_type (from to : native_tag) (l : list V) : list V :=
  if decide (from = to) then l else reinterpret from to l.

(** Modelled from the spec: create/open/close a container, with
    selectable read/write access and a format-version property list. *)
Definition ref_H5Pcreate (cls : plist_class) (s : h5state) : Z * h5state :=
  open_id (HPlist false) s.

Definition ref_H5Pset_libver_bounds (plist : Z) (low high : libver)
    (s : h5state) : Z * h5state :=
  match handles s !! plist with
  | Some (HPlist _) =>
      let latest := match high with
                    | H5F_LIBVER_LATEST => true
                    | H5F_LIBVER_EARLIEST => false
                    end in
      (0, set_handles (<[plist := HPlist latest]>) s)
  | _ => (-1, s)
  end.

(** Creation takes the truncating flag only and replaces a container of
    the same name by an empty one.  The engine has no unwritable paths
    and no full disks: of the failures the specification names, only
    the unusable (empty) name and a bad property list are modelled. *)
Definition ref_H5Fcreate (filename : string) (flags : file_flag)
    (fcpl fapl : Z) (s : h5state) : Z * h5state :=
  match flags with
  | H5F_ACC_TRUNC =>
      if decide (filename = "") then (-1, s)
      else if negb (fapl_ok s fapl) then (-1, s)
      else
        let '(root, s1) := store_new (OGroup ∅) s in
        let s2 := H5State (<[filename := root]> (files s1)) (objs s1)
                          (handles s1) (next_id s1) (next_addr s1)
                          (io_ok s1) in
        open_id (HFile root true) s2
  | H5F_ACC_RDONLY | H5F_ACC_RDWR => (-1, s)
  end.

Definition ref_H5Fopen (filename : string) (flags : file_flag) (fapl : Z)
    (s : h5state) : Z * h5state :=
  if negb (fapl_ok s fapl) then (-1, s)
  else match files s !! filename, flags with
       | Some root, H5F_ACC_RDONLY => open_id (HFile root false) s
       | Some root, H5F_ACC_RDWR => open_id (HFile root true) s
       | _, _ => (-1, s)
       end.

(** Modelled from the spec: create/open/close a named child node under
    a container or another group. *)
Definition ref_H5Gcreate (loc : Z) (name : string) (s : h5state)
  : Z * h5state :=
  match location s loc with
  | Some (a, true) =>
      match links_of s a with
      | Some l =>
          match l !! name with
          | None =>
              let '(g, s1) := store_new (OGroup ∅) s in
              open_id (HGroup g true)
                (set_objs (<[a := OGroup (<[name := g]> l)]>) s1)
          | Some _ => (-1, s)
          end
      | None => (-1, s)
      end
  | _ => (-1, s)
  end.

Definition ref_H5Gopen (loc : Z) (name : string) (s : h5state)
  : Z * h5state :=
  match location s loc with
  | Some (a, rw) =>
      match links_of s a with
      | Some l =>
          match l !! name with
          | Some g =>
              match objs s !! g with
              | Some (OGroup _) => open_id (HGroup g rw) s
              | _ => (-1, s)
              end
          | None => (-1, s)
          end
      | None => (-1, s)
      end
  | None => (-1, s)
  end.

(** Modelled from the spec: describe a simple N-dimensional shape and
    query a shape's dimensionality and per-dimension extents. *)
Definition ref_H5Screate_simple (rank : Z) (dims : list N) (s : h5state)
  : Z * h5state :=
  if decide (rank = Z.of_nat (length dims) ∧ 1 ≤ rank ≤ 32)
  then open_id (HSpace dims) s
  else (-1, s).

Definition ref_H5Sget_simple_extent_ndims (space : Z) (s : h5state)
  : Z * h5state :=
  match handles s !! space with
  | Some (HSpace dims) => (Z.of_nat (length dims), s)
  | _ => (-1, s)
  end.

Definition ref_H5Sget_simple_extent_dims (space : Z) (s : h5state)
  : (Z * list N) * h5state :=
  match handles s !! space with
  | Some (HSpace dims) => ((Z.of_nat (length dims), dims), s)
  | _ => ((-1, []), s)
  end.

(** Modelled from the spec: create a named typed array entry with a
    given shape under a parent node; open it; query its type and shape. *)
Definition ref_H5Dcreate (loc : Z) (name : string) (type : native_tag)
    (space : Z) (s : h5state) : Z * h5state :=
  match location s loc, handles s !! space with
  | Some (a, true), Some (HSpace dims) =>
      match links_of s a with
      | Some l =>
          match l !! name with
          | None =>
              let '(d, s1) :=
                store_new (ODataset type dims (replicate (extent dims) V0)) s in
              open_id (HDataset d true)
                (set_objs (<[a := OGroup (<[name := d]> l)]>) s1)
          | Some _ => (-1, s)
          end
      | None => (-1, s)
      end
  | _, _ => (-1, s)
  end.

Definition ref_H5Dopen (loc : Z) (name : string) (s : h5state)
  : Z * h5state :=
  match find_entry s loc name with
  | Some (d, rw) => open_id (HDataset d rw) s
  | None => (-1, s)
  end.

Definition dataset_of (s : h5state) (dset : Z)
  : option (N * bool * (native_tag * list N * list V)) :=
  match handles s !! dset with
  | Some (HDataset d rw) =>
      match stored s d with
      | Some e => Some (d, rw, e)
      | None => None
      end
  | _ => None
  end.

Definition ref_H5Dget_type (dset : Z) (s : h5state) : Z * h5state :=
  match dataset_of s dset with
  | Some (_, _, (ty, _, _)) => open_id (HType ty) s
  | None => (-1, s)
  end.

Definition ref_H5Dget_space (dset : Z) (s : h5state) : Z * h5state :=
  match dataset_of s dset with
  | Some (_, _, (_, dims, _)) => open_id (HSpace dims) s
  | None => (-1, s)
  end.

(** Modelled from the spec: write/read the raw contents of an entry,
    given a type tag describing how to interpret the buffer.  A write
    needs write access; both need a working storage medium. *)
Definition ref_H5Dwrite (dset : Z) (memtype : native_tag) (buf : list V)
    (s : h5state) : Z * h5state :=
  match dataset_of s dset with
  | Some (d, true, (ty, dims, old)) =>
      if io_ok s then
        (0, set_objs
              (<[d := ODataset ty dims
                        (overwrite old (as_type memtype ty buf))]>) s)
      else (-1, s)
  | _ => (-1, s)
  end.

Definition ref_H5Dread (dset : Z) (memtype : native_tag) (buf : list V)
    (s : h5state) : (Z * list V) * h5state :=
  match dataset_of s dset with
  | Some (_, _, (ty, _, data)) =>
      if io_ok s then ((0, overwrite buf (as_type ty memtype data)), s)
      else ((-1, buf), s)
  | None => ((-1, buf), s)
  end.

(** Modelled from the spec: the engine as a handler of the calls. *)
Definition ref_engine : handler h5state :=
  λ X (c : call X),
    match c in call X return h5state → X * h5state with
    | H5Pcreate cls => ref_H5Pcreate cls
    | H5Pset_libver_bounds plist low high =>
        ref_H5Pset_libver_bounds plist low high
    | H5Fcreate filename flags fcpl fapl =>
        ref_H5Fcreate filename flags fcpl fapl
    | H5Fopen filename flags fapl => ref_H5Fopen filename flags fapl
    | H5Fclose file => close_id is_file file
    | H5Gcreate loc name _ _ _ => ref_H5Gcreate loc name
    | H5Gopen loc name _ => ref_H5Gopen loc name
    | H5Gclose group => close_id is_group group
    | H5Screate_simple rank dims _ => ref_H5Screate_simple rank dims
    | H5Sget_simple_extent_ndims space => ref_H5Sget_simple_extent_ndims space
    | H5Sget_simple_extent_dims space => ref_H5Sget_simple_extent_dims space
    | H5Sclose space => close_id is_space space
    | H5Dcreate loc name type space _ _ _ => ref_H5Dcreate loc name type space
    | H5Dopen loc name _ => ref_H5Dopen loc name
    | H5Dget_type dset => ref_H5Dget_type dset
    | H5Dget_space dset => ref_H5Dget_space dset
    | H5Dwrite dset memtype _ _ _ buf => ref_H5Dwrite dset memtype buf
    | H5Dread dset memtype _ _ _ buf => ref_H5Dread dset memtype buf
    | H5Dclose dset => close_id is_dataset dset
    | H5Tclose type => close_id is_type type
    end.

(** The entry [name] under the location [h], when there is one: its
    type tag, its shape and its contents. *)
Definition entry (s : h5state) (h : Z) (name : string)
  : option (native_tag * list N * list V) :=
  match find_entry s h name with
  | Some (d, _) => stored s d
  | None => None
  end.

(** Identifiers and addresses in use lie below the next free ones. *)
Definition wf (s : h5state) : Prop :=
  0 ≤ next_id s
  ∧ map_Forall (λ h _, h < next_id s) (handles s)
  ∧ map_Forall (λ a _, (a < next_addr s)%N) (objs s).

#[global] Instance wf_dec (s : h5state) : Decision (wf s).
Proof. unfold wf. apply _. Defined.

End Reference.

(** ** Calls that change what is stored *)

Section Writers.
Context {V : Type}.

(** The calls that create a container, a group or an entry, or write the
    contents of an entry; every other call only opens, queries, reads or
    closes. *)
Definition writes_storage {X} (c : @call V X) : bool :=
  match c with
  | H5Fcreate _ _ _ _ => true
  | H5Gcreate _ _ _ _ _ => true
  | H5Dcreate _ _ _ _ _ _ _ => true
  | H5Dwrite _ _ _ _ _ _ => true
  | _ => false
  end.

Definition event_writes (e : @event V) : bool :=
  match e with
  | Ev c _ => writes_storage c
  end.

End Writers.

(** The entry [name] of the group stored at address [a]; [entry] is the
    same seen through a handle. *)
Definition entry_at {V : Type} (s : @h5state V) (a : N) (name : string)
  : option (native_tag * list N * list V) :=
  match links_of s a with
  | Some l =>
      match l !! name with
      | Some d => stored s d
      | None => None
      end
  | None => None
  end.

(** ** Sample engine states

    Elements are integers, [T()] is 0, and a buffer of another tag sees
    the stored values as they are. *)

Module Sample.

Definition engine : handler (@h5state Z) := ref_engine 0 (λ _ _ l, l).

(** The file "a.h5", empty, open for reading and writing as handle 0. *)
Definition st_open : @h5state Z :=
  H5State {[ "a.h5" := 0%N ]} {[ 0%N := OGroup ∅ ]}
          {[ 0 := HFile 0%N true ]} 1 1%N true.

(** The file "a.h5" on disk, not open, holding a vector "x". *)
Definition st_closed : @h5state Z :=
  H5State {[ "a.h5" := 0%N ]}
          (<[ 1%N := ODataset H5T_NATIVE_INT [3%N] [7; 8; 9] ]>
             {[ 0%N := OGroup {[ "x" := 1%N ]} ]})
          ∅ 0 2%N true.

(** The file "a.h5" open as handle 0, holding a 2 x 3 matrix "m" and a
    vector "x" of three [int]s. *)
Definition st_data (medium_ok : bool) : @h5state Z :=
  H5State {[ "a.h5" := 0%N ]}
          (<[ 2%N := ODataset H5T_NATIVE_INT [3%N] [7; 8; 9] ]>
             (<[ 1%N := ODataset H5T_NATIVE_INT [2%N; 3%N] [1; 2; 3; 4; 5; 6] ]>
                {[ 0%N := OGroup (<[ "x" := 2%N ]> {[ "m" := 1%N ]}) ]}))
          {[ 0 := HFile 0%N true ]} 1 3%N medium_ok.

(** A 64-bit platform: [size_t] has 64 bits, a vector of 8-byte
    elements holds at most 2^60 - 1 of them, and the allocator has room
    for 2^20 elements. *)
Definition size_t_bits : N := 64.
Definition max_size : N := 2 ^ 60 - 1.
Definition alloc_ok (n : N) : bool := (n <=? 2 ^ 20)%N.

(** The file "a.h5" open as handle 0, holding a vector "huge" declared
    with 2^61 elements and a vector "big" declared with 2^21. *)
Definition st_huge : @h5state Z :=
  H5State {[ "a.h5" := 0%N ]}
          (<[ 2%N := ODataset H5T_NATIVE_LONG [(2 ^ 21)%N] [] ]>
             (<[ 1%N := ODataset H5T_NATIVE_LONG [(2 ^ 61)%N] [] ]>
                {[ 0%N := OGroup (<[ "big" := 2%N ]> {[ "huge" := 1%N ]}) ]}))
          {[ 0 := HFile 0%N true ]} 1 3%N true.

End Sample.

(** * Properties *)

(** ** Running programs *)

Section RunLemmas.
Context {V E : Type} (eng : @handler V E).

Lemma run_bind {A B} (p : h5prog A) (f : A → h5prog B) (s : E) :
  run eng (p ≫= f) s = run eng (f (run eng p s).1) (run eng p s).2.
Proof.
  revert s. induction p as [a | X c k IH]; intros s; [done |].
  change (Call c k ≫= f) with (Call c (λ x, k x ≫= f)).
  simpl. destruct (eng X c s) as [x s']. apply IH.
Qed.

Lemma run_perform {X} (c : call X) (s : E) : run eng (perform c) s = eng X c s.
Proof. unfold perform. simpl. by destruct (eng X c s). Qed.

Lemma trace_bind {A B} (p : h5prog A) (f : A → h5prog B) (s : E) :
  trace eng (p ≫= f) s =
  trace eng p s ++ trace eng (f (run eng p s).1) (run eng p s).2.
Proof.
  revert s. induction p as [a | X c k IH]; intros s; [done |].
  change (Call c k ≫= f) with (Call c (λ x, k x ≫= f)).
  simpl. destruct (eng X c s) as [x s']. simpl. f_equal. apply IH.
Qed.

Lemma trace_perform {X} (c : call X) (s : E) :
  trace eng (perform c) s = [Ev c (eng X c s).1].
Proof. unfold perform. simpl. by destruct (eng X c s). Qed.

End RunLemmas.

(** ** The type-tag table *)

(** C5, as amended: each of the thirteen types the header specializes
    [HDF5Type] for is mapped to the engine tag named after that very C
    type, and every other type, [signed char] among them, makes the
    mapping throw the "not implemented" error (a ConfigurationError)
    instead of returning a tag. *)
Theorem HDF5Type_table (T : cxx_type) :
  if listed_supported T
  then ∃ tag, HDF5Type_type T = Ok tag ∧ tag_c_type tag = T
  else ∃ e, HDF5Type_type T = Throw e
            ∧ classify e = Some ConfigurationError.
Proof. destruct T; simpl; eauto. Qed.

(** ** Files and groups *)

Section AnyEngine.
Context {V E : Type} (eng : @handler V E).

(** C6: [createFile], [openFile], [createGroup] and [openGroup] return a
    non-negative handle or throw; the error of the two file operations
    is the fixed text followed by the file name. *)
Theorem handle_valid_or_throw (s : E) (filename : string)
    (mode : FileAccessMode) (ver : HDF5Version) (parent : Z) (name : string) :
  valid_or (λ e, what e = msg_create_file +:+ filename
                 ∧ classify e = Some CreationError)
           (run eng (createFile filename ver) s).1
  ∧ valid_or (λ e, what e = msg_open_file +:+ filename
                   ∧ classify e = Some OpenError)
             (run eng (openFile filename mode ver) s).1
  ∧ valid_or (λ e, classify e = Some CreationError)
             (run eng (createGroup parent name) s).1
  ∧ valid_or (λ e, classify e = Some OpenError)
             (run eng (openGroup parent name) s).1.
Proof.
  unfold createFile, openFile, createGroup, openGroup.
  repeat split; rewrite !run_bind, !run_perform;
    match goal with
    | |- context [(?r).1 <? 0] => destruct (Z.ltb_spec (r.1) 0)
    end; simpl; (lia || done).
Qed.

(** C7: [closeFile] and [closeGroup] return normally whatever the
    release call answers; the release call is the only call they issue
    and the state they leave is the one it leaves. *)
Theorem close_never_fails (s : E) (h : Z) :
  run eng (closeFile h) s = (Ok tt, (eng _ (H5Fclose h) s).2)
  ∧ trace eng (closeFile h) s = [Ev (H5Fclose h) (eng _ (H5Fclose h) s).1]
  ∧ run eng (closeGroup h) s = (Ok tt, (eng _ (H5Gclose h) s).2)
  ∧ trace eng (closeGroup h) s = [Ev (H5Gclose h) (eng _ (H5Gclose h) s).1].
Proof.
  unfold closeFile, closeGroup.
  rewrite !run_bind, !trace_bind, !run_perform, !trace_perform.
  done.
Qed.

(** ** Descriptors of [save] and [load], against any engine *)

Ltac step_call :=
  lazymatch goal with
  | |- context [eng ?X ?c ?s] =>
      let x := fresh "x" in
      let s' := fresh "s" in
      destruct (eng X c s) as [x s'] eqn:?; cbn
  end.

Ltac step_if :=
  lazymatch goal with
  | |- context [run eng (if ?a <? 0 then _ else _)] =>
      destruct (Z.ltb_spec a 0); cbn
  end.

Ltac kinds :=
  repeat match goal with
    | |- context [classify ?e] =>
        let k := eval vm_compute in (classify e) in
        change (classify e) with k
    | |- context [has_message ?m ?e] =>
        let b := eval vm_compute in (has_message m e) in
        change (has_message m e) with b
    end;
  cbn.

Ltac ids :=
  kinds; unfold nonneg_id;
  repeat match goal with
    | |- context [?a <? 0] => destruct (Z.ltb_spec a 0); try lia
    end;
  cbn; repeat (case_decide; try lia; cbn); try done.

(** What [save] leaves open: both descriptors when it succeeds, the
    dataspace when the type mapping throws, nothing on the three paths
    that close before they throw. *)
Lemma save_outstanding (s : E) (T : cxx_type) (h : Z) (name : string)
    (data : list V) :
  let dataspace :=
    (eng _ (H5Screate_simple 1 [N.of_nat (length data)] None) s).1 in
  let log := trace eng (save T h name data) s in
  match (run eng (save T h name data) s).1 with
  | Ok _ =>
      ∃ dataset, 0 ≤ dataset ∧ 0 ≤ dataspace
                 ∧ outstanding log = [dataset; dataspace]
  | Throw e =>
      match classify e with
      | Some ConfigurationError => 0 ≤ dataspace ∧ outstanding log = [dataspace]
      | Some ShapeError | Some CreationError | Some WriteError =>
          outstanding log = []
      | _ => False
      end
  end.
Proof.
  unfold save, outstanding. cbn. step_call. step_if; [solve [ids] |].
  destruct T; cbn; try (kinds; split; [lia | solve [ids]]).
  all: step_call; step_if; [step_call; solve [ids] | step_call].
  all: step_if; [do 2 step_call; solve [ids] |].
  all: match goal with
       | _ : 0 ≤ ?d |- _ => exists d; split; [lia |]; split; [lia | solve [ids]]
       end.
Qed.

(** What [load] leaves open: nothing when it returns or throws after its
    closing calls; the dataset (and whatever else it obtained) when the
    entry is not one-dimensional or the type mapping throws.  This is
    the account of the calls in which [resize] does not throw;
    [load_exits_outstanding] covers that exit too. *)
Lemma load_outstanding (V0 : V) (s : E) (T : cxx_type) (h : Z)
    (name : string) (data : list V) :
  let dataset := (eng _ (H5Dopen h name H5P_DEFAULT) s).1 in
  let log := trace eng (load V0 T h name data) s in
  match (run eng (load V0 T h name data) s).1.1 with
  | Ok _ => outstanding log = []
  | Throw e =>
      if has_message msg_not_1d e || has_message msg_not_implemented e
      then 0 ≤ dataset ∧ last (outstanding log) = Some dataset
      else outstanding log = []
  end.
Proof.
  unfold load, outstanding. cbn. step_call. step_if; [solve [ids] |].
  do 3 step_call.
  destruct (x2 =? 1); cbn; [| kinds; split; [lia | solve [ids]]].
  step_call. destruct x3 as [status written]. cbn.
  step_if; [do 3 step_call; solve [ids] |].
  destruct T; cbn; try (kinds; split; [lia | solve [ids]]).
  all: step_call; destruct x3 as [status' buf]; cbn.
  all: do 3 step_call.
  all: destruct (Z.ltb_spec status' 0); cbn; solve [ids].
Qed.

(** The three throws of [load] that precede [data.resize] leave the
    vector as the caller passed it, whatever the engine answers. *)
Lemma load_early_throw_keeps_data (V0 : V) (s : E) (T : cxx_type) (h : Z)
    (name : string) (data data' : list V) (e : exn) :
  (run eng (load V0 T h name data) s).1 = (Throw e, data') →
  has_message msg_open_dataset e || has_message msg_not_1d e
  || has_message msg_shape e = true →
  data' = data.
Proof.
  unfold load. cbn. step_call. step_if; [by intros [= <- <-] |].
  do 3 step_call.
  destruct (x2 =? 1); cbn; [| by intros [= <- <-]].
  step_call. destruct x3 as [status written]. cbn.
  step_if; [do 3 step_call; by intros [= <- <-] |].
  destruct T; cbn; try (intros [= <- <-]; by vm_compute).
  all: step_call; destruct x3 as [status' buf]; cbn.
  all: do 3 step_call.
  all: destruct (Z.ltb_spec status' 0); cbn; intros [= <- <-]; by vm_compute.
Qed.

End AnyEngine.

(** ** [save] and [load] against the reference engine *)

Section AgainstReference.
Context {V : Type} (V0 : V).
Context (reinterpret : native_tag → native_tag → list V → list V).

Local Abbreviation eng := (ref_engine V0 reinterpret).

Lemma find_entry_stored (s : @h5state V) (h : Z) (name : string) d rw :
  find_entry s h name = Some (d, rw) → is_Some (stored s d).
Proof.
  unfold find_entry. intros Hf.
  repeat case_match; simplify_eq; eauto.
Qed.

Lemma length_resize (n : nat) (l : list V) : length (resize V0 n l) = n.
Proof. unfold resize. rewrite length_app, length_take, length_replicate. lia. Qed.

Lemma length_overwrite (dst src : list V) :
  length (overwrite dst src) = length dst.
Proof.
  unfold overwrite.
  rewrite length_take, length_app, length_drop. lia.
Qed.

Lemma overwrite_all (dst src : list V) :
  length src = length dst → overwrite dst src = src.
Proof.
  intros Hl. unfold overwrite.
  rewrite drop_ge by lia. rewrite app_nil_r, <- Hl. apply firstn_all.
Qed.

Ltac maps :=
  repeat first
    [ rewrite lookup_insert_eq
    | rewrite lookup_insert_ne by lia
    | rewrite lookup_delete_ne by lia ].

Lemma load_against_reference (s : h5state) (T : cxx_type) (h : Z)
    (name : string) (data : list V) :
  0 ≤ next_id s →
  (run eng (load V0 T h name data) s).1 =
  match entry s h name with
  | None => (Throw (runtime_error msg_open_dataset), data)
  | Some (ty, dims, contents) =>
      match dims with
      | [size] =>
          let buf := resize V0 (N.to_nat size) data in
          match HDF5Type_type T with
          | Throw e => (Throw e, buf)
          | Ok tag =>
              if io_ok s
              then (Ok tt, overwrite buf (as_type reinterpret ty tag contents))
              else (Throw (runtime_error msg_read), buf)
          end
      | _ => (Throw (runtime_error msg_not_1d), data)
      end
  end.
Proof.
  intros Hid. unfold load, entry. cbn. unfold ref_H5Dopen.
  destruct (find_entry s h name) as [[d rw]|] eqn:Hf; cbn; [| done].
  destruct (find_entry_stored _ _ _ _ _ Hf) as [[[ty dims] contents] Hst].
  rewrite Hst.
  destruct (Z.ltb_spec (next_id s) 0); [lia |]. cbn.
  assert (Hnd : negb (Z.of_nat (length dims) =? 1)
                = match dims with [_] => false | _ => true end).
  { destruct dims as [| ? [| ? ?]]; try done.
    cbn [length]. destruct (Z.eqb_spec (Z.of_nat (S (S (length l)))) 1); [lia | done]. }
  unfold stored in Hst.
  repeat (unfold ref_H5Dget_type, ref_H5Dget_space, dataset_of, stored,
            ref_H5Sget_simple_extent_ndims; cbn; maps; rewrite ?Hst; cbn).
  rewrite Hnd. clear Hnd.
  destruct dims as [| size [| ? ?]]; [done | | done].
  cbn. unfold ref_H5Sget_simple_extent_dims. cbn. maps. cbn.
  change (Z.of_nat 1 <? 0) with false.
  destruct (HDF5Type_type T) as [tag | e]; [| done].
  cbn. unfold ref_H5Dread, dataset_of, stored. cbn. maps. rewrite Hst.
  destruct (io_ok s); cbn; unfold close_id; cbn; maps; cbn; maps; cbn;
    maps; done.
Qed.

Lemma load_missing (s : h5state) (T : cxx_type) (h : Z) (name : string)
    (data : list V) :
  entry s h name = None →
  run eng (load V0 T h name data) s
  = ((Throw (runtime_error msg_open_dataset), data), s).
Proof.
  unfold entry, load. intros He. cbn. unfold ref_H5Dopen.
  destruct (find_entry s h name) as [[d rw]|] eqn:Hf; [| done].
  destruct (find_entry_stored _ _ _ _ _ Hf) as [x Hx]. congruence.
Qed.

Lemma extent_1 (n : N) : extent [n] = N.to_nat n.
Proof. unfold extent. cbn. by rewrite N.mul_1_r. Qed.

Lemma as_type_same (t : native_tag) (l : list V) :
  as_type reinterpret t t l = l.
Proof. unfold as_type. by rewrite decide_True. Qed.

Lemma save_fresh_name (s : h5state) (T : cxx_type) (tag : native_tag)
    (h : Z) (name : string) (data : list V) a l :
  wf s →
  HDF5Type_type T = Ok tag →
  location s h = Some (a, true) →
  links_of s a = Some l →
  l !! name = None →
  io_ok s = true →
  ∃ s', run eng (save T h name data) s = (Ok tt, s')
        ∧ entry s' h name = Some (tag, [N.of_nat (length data)], data)
        ∧ 0 ≤ next_id s' ∧ io_ok s' = true.
Proof.
  intros (Hid & Hh & Ho) HT Hloc Hl Hname Hio.
  assert (h < next_id s) as Hlt.
  { unfold location in Hloc.
    destruct (handles s !! h) eqn:Hn; [| done]. by apply Hh in Hn. }
  assert (a < next_addr s)%N as Hlta.
  { unfold links_of in Hl.
    destruct (objs s !! a) eqn:Hn; [| done]. by apply Ho in Hn. }
  unfold save. rewrite HT. cbn. unfold ref_H5Screate_simple. cbn.
  rewrite decide_True by (split; lia).
  cbn. destruct (Z.ltb_spec (next_id s) 0); [lia |]. cbn.
  unfold ref_H5Dcreate, location, links_of in *. cbn. maps.
  rewrite Hloc. cbn. rewrite Hl, Hname. cbn.
  destruct (Z.ltb_spec (next_id s + 1) 0); [lia |]. cbn.
  unfold ref_H5Dwrite, dataset_of, stored. cbn. maps. cbn.
  rewrite Hio. cbn. eexists. split; [reflexivity |].
  split; [| split; [cbn; lia | done]].
  unfold entry, find_entry, location, links_of, stored. cbn. maps.
  rewrite Hloc. maps. cbn. maps. cbn. maps.
  rewrite as_type_same, overwrite_all; [done |].
  by rewrite length_replicate, extent_1, Nat2N.id.
Qed.


Lemma supported_tag (T : cxx_type) :
  listed_supported T = true → ∃ tag, HDF5Type_type T = Ok tag.
Proof. destruct T; cbn; eauto; discriminate. Qed.

(** C1: on a writable location of a working engine, under a name not
    yet taken, [save] of a vector of a supported type succeeds and the
    [load] that follows succeeds and leaves exactly the saved vector in
    [out], whatever [out] held before. *)
Theorem save_load_roundtrip (s : h5state) (T : cxx_type) (h : Z)
    (name : string) (v out : list V) a l :
  wf s →
  listed_supported T = true →
  location s h = Some (a, true) →
  links_of s a = Some l →
  l !! name = None →
  io_ok s = true →
  ∃ s1 s2 out',
    run eng (save T h name v) s = (Ok tt, s1)
    ∧ run eng (load V0 T h name out) s1 = ((Ok tt, out'), s2)
    ∧ out' = v ∧ length out' = length v.
Proof.
  intros Hwf HT Hloc Hl Hname Hio.
  destruct (supported_tag T HT) as [tag Htag].
  destruct (save_fresh_name s T tag h name v a l Hwf Htag Hloc Hl Hname Hio)
    as (s1 & Hsave & Hentry & Hid & Hio1).
  pose proof (load_against_reference s1 T h name out Hid) as Hload.
  rewrite Hentry, Htag, Hio1 in Hload. cbv zeta in Hload.
  rewrite as_type_same, overwrite_all in Hload
    by (by rewrite length_resize, Nat2N.id).
  destruct (run eng (load V0 T h name out) s1) as [[r out'] s2] eqn:Hrun.
  cbn [fst] in Hload. simplify_eq. by exists s1, s2, v.
Qed.

(** A [save] that returns normally found a writable group, a free name,
    a mapped type and a working medium. *)
Lemma save_returns_inv (s : h5state) (T : cxx_type) (h : Z) (name : string)
    (v : list V) :
  wf s →
  (run eng (save T h name v) s).1 = Ok tt →
  ∃ tag a l, HDF5Type_type T = Ok tag
             ∧ location s h = Some (a, true)
             ∧ links_of s a = Some l
             ∧ l !! name = None
             ∧ io_ok s = true.
Proof.
  intros (Hid & Hh & Ho). unfold save. cbn. unfold ref_H5Screate_simple. cbn.
  rewrite decide_True by (split; lia). cbn.
  destruct (Z.ltb_spec (next_id s) 0); [lia |]. cbn.
  destruct (HDF5Type_type T) as [tag | e]; [| done]. cbn.
  unfold ref_H5Dcreate, location. cbn.
  destruct (decide (h = next_id s)) as [-> | Hne]; maps;
    [cbn; unfold close_id; cbn; by maps |].
  destruct (handles s !! h) as [[| a [|] | a [|] | | |]|] eqn:Hhh; cbn;
    try (unfold close_id; cbn; by maps).
  all: destruct (links_of _ a) as [l|] eqn:Hl; cbn;
    [| unfold close_id; cbn; by maps].
  all: assert (a < next_addr s)%N
    by (unfold links_of in Hl; cbn in Hl;
        destruct (objs s !! a) eqn:Hoa; [by apply Ho in Hoa | done]).
  all: destruct (l !! name) eqn:Hname; cbn;
    [unfold close_id; cbn; by maps |].
  all: destruct (Z.ltb_spec (next_id s + 1) 0); [lia |]; cbn.
  all: unfold ref_H5Dwrite, dataset_of, stored; cbn; maps; cbn.
  all: destruct (io_ok s) eqn:Hio; cbn;
    [| unfold close_id; cbn; maps; cbn; by maps].
  all: intros _; by exists tag, a, l.
Qed.

(** Whenever [save] returns normally, the [load] that follows returns
    the saved vector. *)
Lemma load_after_save (s s1 : h5state) (T : cxx_type) (h : Z)
    (name : string) (v out : list V) :
  wf s →
  run eng (save T h name v) s = (Ok tt, s1) →
  ∃ s2, run eng (load V0 T h name out) s1 = ((Ok tt, v), s2).
Proof.
  intros Hwf Hsave.
  destruct (save_returns_inv s T h name v Hwf) as (tag & a & l & HT & Hrest);
    [by rewrite Hsave |].
  destruct Hrest as (Hloc & Hl & Hname & Hio).
  destruct (save_fresh_name s T tag h name v a l Hwf HT Hloc Hl Hname Hio)
    as (s1' & Hsave' & Hentry & Hid & Hio1).
  assert (s1' = s1) as -> by congruence.
  pose proof (load_against_reference s1 T h name out Hid) as Hload.
  rewrite Hentry, HT, Hio1 in Hload. cbv zeta in Hload.
  rewrite as_type_same, overwrite_all in Hload
    by (by rewrite length_resize, Nat2N.id).
  destruct (run eng (load V0 T h name out) s1) as [[r out'] s2] eqn:Hrun.
  cbn [fst] in Hload. simplify_eq. by exists s2.
Qed.

(** C8: [load] of a name with no entry under a valid location fails
    with the OpenError; the engine is left exactly as it was, so the
    handle still denotes the same location. *)
Theorem load_missing_entry (s : h5state) (T : cxx_type) (h : Z)
    (name : string) (out : list V) :
  is_Some (location s h) →
  entry s h name = None →
  ∃ e s', run eng (load V0 T h name out) s = ((Throw e, out), s')
          ∧ classify e = Some OpenError
          ∧ s' = s ∧ is_Some (location s' h).
Proof.
  intros Hloc He. rewrite (load_missing s T h name out He). by eauto 6.
Qed.

Lemma openFile_read_only (s s1 : h5state) (filename : string)
    (ver : HDF5Version) (h : Z) :
  run eng (openFile filename READ_ONLY ver) s = (Ok h, s1) →
  ∃ root, handles s1 !! h = Some (HFile root false).
Proof.
  unfold openFile. rewrite !run_bind, run_perform.
  destruct (run eng (version_plist ver) s) as [v s0]. cbn.
  unfold ref_H5Fopen.
  destruct (fapl_ok s0 v); cbn; [| by inversion 1].
  destruct (files s0 !! filename) as [root|]; cbn; [| by inversion 1].
  destruct (Z.ltb_spec (next_id s0) 0); cbn; inversion 1; subst.
  exists root. cbn. by rewrite lookup_insert_eq.
Qed.

Lemma save_read_only (s : h5state) (T : cxx_type) (h : Z) (name : string)
    (v : list V) (root : N) :
  0 ≤ next_id s →
  handles s !! h = Some (HFile root false) →
  (run eng (save T h name v) s).1
  = Throw match HDF5Type_type T with
          | Throw e => e
          | Ok _ => runtime_error msg_create_dataset
          end.
Proof.
  intros Hid Hh. unfold save. cbn. unfold ref_H5Screate_simple. cbn.
  rewrite decide_True by (split; lia). cbn.
  destruct (Z.ltb_spec (next_id s) 0); [lia |]. cbn.
  destruct (HDF5Type_type T) as [tag | e]; [| done]. cbn.
  unfold ref_H5Dcreate, location. cbn.
  destruct (decide (h = next_id s)) as [-> | Hne]; maps; rewrite ?Hh;
    cbn; unfold close_id; cbn; by maps.
Qed.

(** C9: after [openFile] in READ_ONLY mode, [save] through that handle
    fails in every engine state in which the handle is still the one
    [openFile] answered: it never returns normally, and the engine's
    refusal to create the entry reaches the caller as the CreationError
    (for a type without a tag the type mapping throws first). *)
Theorem save_into_read_only_file (s s1 : h5state) (filename : string)
    (ver : HDF5Version) (h : Z) :
  run eng (openFile filename READ_ONLY ver) s = (Ok h, s1) →
  ∀ s' T name (v : list V),
    wf s' →
    handles s' !! h = handles s1 !! h →
    ∃ e, (run eng (save T h name v) s').1 = Throw e
         ∧ (listed_supported T = true →
            classify e = Some CreationError ∨ classify e = Some WriteError)
         ∧ (listed_supported T = false →
            classify e = Some ConfigurationError).
Proof.
  intros Hopen s' T name v (Hid & _) Hsame.
  destruct (openFile_read_only _ _ _ _ _ Hopen) as [root Hroot].
  rewrite Hroot in Hsame.
  rewrite (save_read_only s' T h name v root Hid Hsame).
  eexists. split; [done |].
  destruct T; cbn; split; intros; try discriminate; by (left + idtac).
Qed.


End AgainstReference.

(** ** The properties at sample inputs *)

Module SampleFacts.
Import Sample.

Lemma wf_st_open : wf st_open.
Proof. compute_done. Qed.

Lemma wf_st_data (medium_ok : bool) : wf (st_data medium_ok).
Proof. destruct medium_ok; compute_done. Qed.

Lemma wf_st_closed : wf st_closed.
Proof. compute_done. Qed.

(** C3 at a failing input: [save<signed char>] into the open file
    obtains the dataspace 1, throws from the type mapping and leaves
    the dataspace open. *)
Theorem save_unmapped_type_leaves_dataspace :
  (run engine (save t_signed_char 0 "flags" [1; -1]) st_open).1
  = Throw (runtime_error msg_not_implemented)
  ∧ classify (runtime_error msg_not_implemented) = Some ConfigurationError
  ∧ outstanding (trace engine (save t_signed_char 0 "flags" [1; -1]) st_open)
    = [1].
Proof. by vm_compute. Qed.

(** C4 at two failing inputs: a successful [save] leaves its dataset 2
    and dataspace 1 open, and [load] of the 2 x 3 matrix "m" throws the
    not-one-dimensional error with dataset 1, datatype 2 and dataspace 3
    still open. *)
Theorem save_and_load_leave_descriptors :
  ((run engine (save t_int 0 "x" [1; 2; 3]) st_open).1 = Ok tt
   ∧ outstanding (trace engine (save t_int 0 "x" [1; 2; 3]) st_open) = [2; 1])
  ∧ ((run engine (load 0 t_int 0 "m" [4]) (st_data true)).1
     = (Throw (runtime_error msg_not_1d), [4])
     ∧ outstanding (trace engine (load 0 t_int 0 "m" [4]) (st_data true))
       = [3; 2; 1]).
Proof. by vm_compute. Qed.

Example roundtrip_empty_vector :
  (run engine (load 0 t_double 0 "e" [1; 2])
     (run engine (save t_double 0 "e" []) st_open).2).1
  = (Ok tt, []).
Proof. reflexivity. Qed.

Lemma save_load_roundtrip_witness :
  wf st_open
  ∧ listed_supported t_int = true
  ∧ location st_open 0 = Some (0%N, true)
  ∧ links_of st_open 0%N = Some ∅
  ∧ (∅ : gmap string N) !! "x" = None
  ∧ io_ok st_open = true
  ∧ ∃ s1 s2 out',
      run engine (save t_int 0 "x" [1; -2; 3]) st_open = (Ok tt, s1)
      ∧ run engine (load 0 t_int 0 "x" [5]) s1 = ((Ok tt, out'), s2)
      ∧ out' = [1; -2; 3] ∧ length out' = length [1; -2; 3].
Proof.
  split; [exact wf_st_open |]. do 5 (split; [reflexivity |]).
  apply (save_load_roundtrip 0 (λ _ _ l, l) st_open t_int 0 "x"
           [1; -2; 3] [5] 0%N ∅); try reflexivity.
  exact wf_st_open.
Defined.

Lemma load_missing_entry_witness :
  is_Some (location st_open 0)
  ∧ entry st_open 0 "nonexistent" = None
  ∧ ∃ e s', run engine (load 0 t_int 0 "nonexistent" [5]) st_open
            = ((Throw e, [5]), s')
            ∧ classify e = Some OpenError
            ∧ s' = st_open ∧ is_Some (location s' 0).
Proof.
  assert (is_Some (location st_open 0)) as Hloc by (by eexists).
  split; [exact Hloc |]. split; [reflexivity |].
  exact (load_missing_entry 0 (λ _ _ l, l) st_open t_int 0 "nonexistent" [5]
           Hloc eq_refl).
Defined.

Lemma save_into_read_only_file_witness :
  let s1 :=
    (run engine (openFile "a.h5" READ_ONLY HDF5_VERSION_DEFAULT) st_closed).2 in
  run engine (openFile "a.h5" READ_ONLY HDF5_VERSION_DEFAULT) st_closed
  = (Ok 0, s1)
  ∧ wf s1
  ∧ ∃ e, (run engine (save t_int 0 "y" [1]) s1).1 = Throw e
         ∧ (listed_supported t_int = true →
            classify e = Some CreationError ∨ classify e = Some WriteError)
         ∧ (listed_supported t_int = false →
            classify e = Some ConfigurationError).
Proof.
  intros s1.
  assert (run engine (openFile "a.h5" READ_ONLY HDF5_VERSION_DEFAULT)
            st_closed = (Ok 0, s1)) as Hopen by reflexivity.
  assert (wf s1) as Hwf by compute_done.
  split; [exact Hopen |]. split; [exact Hwf |].
  exact (save_into_read_only_file 0 (λ _ _ l, l) st_closed s1 "a.h5"
           HDF5_VERSION_DEFAULT 0 Hopen s1 t_int "y" [1] Hwf eq_refl).
Defined.


End SampleFacts.

(** * Further properties of the header *)

(** ** Against any engine *)

Section MoreAnyEngine.
Context {V E : Type} (eng : @handler V E).

Ltac next_call :=
  lazymatch goal with
  | |- context [eng ?X ?c ?s] =>
      let x := fresh "x" in
      let s' := fresh "s" in
      destruct (eng X c s) as [x s'] eqn:?; cbn
  end.

Ltac next_if :=
  lazymatch goal with
  | |- context [run eng (if ?a <? 0 then _ else _)] =>
      destruct (Z.ltb_spec a 0); cbn
  | |- context [trace eng (if ?a <? 0 then _ else _)] =>
      destruct (Z.ltb_spec a 0); cbn
  end.

(** A [save] that returns normally made exactly three calls, none of
    which reported failure: it described a one-dimensional shape of the
    vector's length, created the entry in it under the tag of [T], and
    wrote the whole vector under that same tag. *)
Theorem save_success_calls (s : E) (T : cxx_type) (h : Z) (name : string)
    (data : list V) :
  (run eng (save T h name data) s).1 = Ok tt →
  ∃ tag dataspace dataset status,
    HDF5Type_type T = Ok tag
    ∧ trace eng (save T h name data) s
      = [ Ev (H5Screate_simple 1 [N.of_nat (length data)] None) dataspace;
          Ev (H5Dcreate h name tag dataspace
                H5P_DEFAULT H5P_DEFAULT H5P_DEFAULT) dataset;
          Ev (H5Dwrite dataset tag H5S_ALL H5S_ALL H5P_DEFAULT data) status ]
    ∧ 0 ≤ dataspace ∧ 0 ≤ dataset ∧ 0 ≤ status.
Proof.
  unfold save. cbn. next_call. next_if; [done |].
  destruct (HDF5Type_type T) as [tag | e]; cbn; [| done].
  next_call. next_if; [by next_call |].
  next_call. next_if; [by do 2 next_call |].
  intros _. by eexists tag, _, _, _.
Qed.

(** [load], [openFile], [openGroup], [closeFile] and [closeGroup] never
    issue a call that creates or writes anything. *)
Theorem readers_never_write (V0 : V) (s : E) (T : cxx_type) (h : Z)
    (name : string) (data : list V) (mode : FileAccessMode)
    (ver : HDF5Version) :
  Forall (λ e, event_writes e = false) (trace eng (load V0 T h name data) s)
  ∧ Forall (λ e, event_writes e = false)
           (trace eng (openFile name mode ver) s)
  ∧ Forall (λ e, event_writes e = false) (trace eng (openGroup h name) s)
  ∧ Forall (λ e, event_writes e = false) (trace eng (closeFile h) s)
  ∧ Forall (λ e, event_writes e = false) (trace eng (closeGroup h) s).
Proof.
  repeat split.
  - unfold load. cbn. next_call. next_if; [by repeat constructor |].
    do 3 next_call.
    destruct (x2 =? 1); cbn; [| by repeat constructor].
    next_call. destruct x3 as [status written]. cbn.
    next_if; [do 3 next_call; by repeat constructor |].
    destruct (HDF5Type_type T); cbn; [| by repeat constructor].
    next_call. destruct x3 as [status' buf]. cbn.
    do 3 next_call. destruct (status' <? 0); by repeat constructor.
  - unfold openFile. destruct ver, mode; cbn; repeat next_call;
      next_if; by repeat constructor.
  - unfold openGroup. cbn. next_call. next_if; by repeat constructor.
  - unfold closeFile. cbn. next_call. by repeat constructor.
  - unfold closeGroup. cbn. next_call. by repeat constructor.
Qed.

End MoreAnyEngine.

(** ** Against the reference engine *)

Section MoreReference.
Context {V : Type} (V0 : V).
Context (reinterpret : native_tag → native_tag → list V → list V).

Local Abbreviation eng := (ref_engine V0 reinterpret).

Ltac lookups :=
  repeat first
    [ rewrite lookup_insert_eq
    | rewrite lookup_insert_ne by lia
    | rewrite lookup_delete_ne by lia ].

Lemma fresh_id (s : @h5state V) : wf s → handles s !! next_id s = None.
Proof.
  intros (_ & Hh & _). destruct (handles s !! next_id s) eqn:Hn; [| done].
  apply Hh in Hn. lia.
Qed.

Lemma location_lt (s : @h5state V) (h : Z) a rw :
  wf s → location s h = Some (a, rw) → h < next_id s.
Proof.
  intros (_ & Hh & _). unfold location.
  destruct (handles s !! h) eqn:Hn; [| done]. intros _. by apply Hh in Hn.
Qed.

Lemma links_lt (s : @h5state V) (a : N) l :
  wf s → links_of s a = Some l → (a < next_addr s)%N.
Proof.
  intros (_ & _ & Ho). unfold links_of.
  destruct (objs s !! a) eqn:Hn; [| done]. intros _. by apply Ho in Hn.
Qed.

Lemma entry_location (s : @h5state V) (h : Z) (name : string) a rw :
  location s h = Some (a, rw) → entry s h name = entry_at s a name.
Proof.
  unfold entry, find_entry, entry_at. intros ->.
  destruct (links_of s a) as [l|]; [| done].
  destruct (l !! name) as [d|]; [| done].
  destruct (stored s d) eqn:Hs; cbn; by rewrite ?Hs.
Qed.

(** A [save] under a name that is already taken throws the CreationError
    and leaves the engine as it was: the dataspace it made is closed
    again and the entry already stored is untouched. *)
Theorem save_taken_name (s : h5state) (T : cxx_type) (tag : native_tag)
    (h : Z) (name : string) (v : list V) a rw l :
  wf s →
  HDF5Type_type T = Ok tag →
  location s h = Some (a, rw) →
  links_of s a = Some l →
  is_Some (l !! name) →
  ∃ s', run eng (save T h name v) s
        = (Throw (runtime_error msg_create_dataset), s')
        ∧ classify (runtime_error msg_create_dataset) = Some CreationError
        ∧ files s' = files s ∧ objs s' = objs s ∧ handles s' = handles s
        ∧ entry s' h name = entry s h name.
Proof.
  intros Hwf HT Hloc Hl [d Hd].
  pose proof (fresh_id s Hwf) as Hfresh.
  pose proof (location_lt s h a rw Hwf Hloc) as Hlt.
  destruct Hwf as (Hid & _).
  unfold save. rewrite HT. cbn. unfold ref_H5Screate_simple. cbn.
  rewrite decide_True by (split; lia). cbn.
  destruct (Z.ltb_spec (next_id s) 0); [lia |]. cbn.
  unfold ref_H5Dcreate, location, links_of in *. cbn. lookups.
  rewrite Hloc. cbn.
  destruct rw; cbn; rewrite ?Hl, ?Hd; cbn; unfold close_id; cbn; lookups; cbn.
  all: eexists; split; [reflexivity |]; cbn.
  all: rewrite (delete_insert_id _ _ _ Hfresh).
  all: repeat (split; [done |]).
  all: unfold entry, find_entry, location, links_of, stored; cbn.
  all: by rewrite (delete_insert_id _ _ _ Hfresh).
Qed.

(** When the write itself fails, [save] throws the WriteError after
    closing both descriptors, but the entry it created stays behind: it
    has the shape of the vector and holds default values, so the name is
    taken from then on. *)
Theorem save_failed_write_leaves_entry (s : h5state) (T : cxx_type)
    (tag : native_tag) (h : Z) (name : string) (v : list V) a l :
  wf s →
  HDF5Type_type T = Ok tag →
  location s h = Some (a, true) →
  links_of s a = Some l →
  l !! name = None →
  io_ok s = false →
  ∃ s', run eng (save T h name v) s
        = (Throw (runtime_error msg_write), s')
        ∧ classify (runtime_error msg_write) = Some WriteError
        ∧ handles s' = handles s
        ∧ entry s' h name
          = Some (tag, [N.of_nat (length v)], replicate (length v) V0).
Proof.
  intros Hwf HT Hloc Hl Hname Hio.
  pose proof (fresh_id s Hwf) as Hfresh.
  pose proof (location_lt s h a true Hwf Hloc) as Hlt.
  pose proof (links_lt s a l Hwf Hl) as Hlta.
  destruct Hwf as (Hid & Hh & _).
  assert (handles s !! (next_id s + 1) = None) as Hfresh'.
  { destruct (handles s !! (next_id s + 1)) eqn:Hn; [| done].
    apply Hh in Hn. lia. }
  unfold save. rewrite HT. cbn. unfold ref_H5Screate_simple. cbn.
  rewrite decide_True by (split; lia). cbn.
  destruct (Z.ltb_spec (next_id s) 0); [lia |]. cbn.
  unfold ref_H5Dcreate, location, links_of in *. cbn. lookups.
  rewrite Hloc. cbn. rewrite Hl, Hname. cbn.
  destruct (Z.ltb_spec (next_id s + 1) 0); [lia |]. cbn.
  unfold ref_H5Dwrite, dataset_of, stored. cbn. lookups. cbn.
  rewrite Hio. cbn. unfold close_id. cbn. lookups. cbn. lookups. cbn.
  eexists. split; [reflexivity |]. cbn. split; [done |].
  assert (delete (next_id s)
            (delete (next_id s + 1)
               (<[next_id s + 1:=HDataset (next_addr s) true]>
                  (<[next_id s:=HSpace [N.of_nat (length v)]]> (handles s))))
          = handles s) as Hsame.
  { rewrite delete_insert_id by (by rewrite lookup_insert_ne by lia).
    by apply delete_insert_id. }
  split; [done |].
  unfold entry, find_entry, location, links_of, stored. cbn.
  rewrite Hsame, Hloc. lookups. cbn. lookups. cbn. lookups.
  by rewrite extent_1, Nat2N.id.
Qed.

Lemma entry_at_objs (s s' : @h5state V) (a : N) (name : string) :
  objs s' = objs s → entry_at s' a name = entry_at s a name.
Proof. unfold entry_at, links_of, stored. by intros ->. Qed.

Lemma save_fresh_post (s : h5state) (T : cxx_type) (tag : native_tag)
    (h : Z) (name : string) (v : list V) a l :
  wf s →
  HDF5Type_type T = Ok tag →
  location s h = Some (a, true) →
  links_of s a = Some l →
  l !! name = None →
  io_ok s = true →
  ∃ s', run eng (save T h name v) s = (Ok tt, s')
        ∧ files s' = files s
        ∧ entry_at s' a name = Some (tag, [N.of_nat (length v)], v)
        ∧ next_id s ≤ next_id s'
        ∧ handles s' !! h = handles s !! h
        ∧ io_ok s' = true.
Proof.
  intros Hwf HT Hloc Hl Hname Hio.
  pose proof (location_lt s h a true Hwf Hloc) as Hlt.
  pose proof (links_lt s a l Hwf Hl) as Hlta.
  destruct Hwf as (Hid & _).
  unfold save. rewrite HT. cbn. unfold ref_H5Screate_simple. cbn.
  rewrite decide_True by (split; lia). cbn.
  destruct (Z.ltb_spec (next_id s) 0); [lia |]. cbn.
  unfold ref_H5Dcreate, location, links_of in *. cbn. lookups.
  rewrite Hloc. cbn. rewrite Hl, Hname. cbn.
  destruct (Z.ltb_spec (next_id s + 1) 0); [lia |]. cbn.
  unfold ref_H5Dwrite, dataset_of, stored. cbn. lookups. cbn.
  rewrite Hio. cbn. eexists. split; [reflexivity |]. cbn.
  split; [done |]. split.
  - unfold entry_at, links_of, stored. cbn. lookups. cbn. lookups.
    rewrite as_type_same, overwrite_all; [done |].
    by rewrite length_replicate, extent_1, Nat2N.id.
  - split; [lia |]. split; [by lookups | done].
Qed.

Lemma closeFile_open_file (s : @h5state V) (h : Z) a rw :
  handles s !! h = Some (HFile a rw) →
  run eng (closeFile h) s = (Ok tt, set_handles (delete h) s).
Proof. intros Hh. unfold closeFile. cbn. unfold close_id. by rewrite Hh. Qed.

Lemma openFile_existing (s : @h5state V) (filename : string)
    (mode : FileAccessMode) (ver : HDF5Version) a :
  0 ≤ next_id s →
  files s !! filename = Some a →
  ∃ h' s', run eng (openFile filename mode ver) s = (Ok h', s')
           ∧ location s' h'
             = Some (a, match mode with READ_WRITE => true | READ_ONLY => false end)
           ∧ objs s' = objs s
           ∧ 0 ≤ next_id s'
           ∧ io_ok s' = io_ok s.
Proof.
  intros Hid Hf. unfold openFile.
  destruct ver, mode; cbn; unfold ref_H5Pset_libver_bounds, ref_H5Fopen,
    fapl_ok, location; cbn; lookups; cbn; rewrite ?Hf; cbn.
  all: repeat case_decide; try done; cbn; lookups; cbn; rewrite ?Hf; cbn.
  all: repeat match goal with
         | |- context [?n <? 0] => destruct (Z.ltb_spec n 0); [lia |]
         end; cbn.
  all: eexists _, _; split; [reflexivity |]; cbn; lookups.
  all: repeat split; try done; lia.
Qed.

(** What [save] stored is still there after the file is closed and
    opened again: the [load] through the new handle, in either access
    mode, returns the saved vector. *)
Theorem saved_data_survives_reopen (s : h5state) (T : cxx_type) (h : Z)
    (filename name : string) (v out : list V) (mode : FileAccessMode)
    (ver : HDF5Version) a l :
  wf s →
  listed_supported T = true →
  handles s !! h = Some (HFile a true) →
  files s !! filename = Some a →
  links_of s a = Some l →
  l !! name = None →
  io_ok s = true →
  ∃ s1 s2 h' s3 s4,
    run eng (save T h name v) s = (Ok tt, s1)
    ∧ run eng (closeFile h) s1 = (Ok tt, s2)
    ∧ run eng (openFile filename mode ver) s2 = (Ok h', s3)
    ∧ run eng (load V0 T h' name out) s3 = ((Ok tt, v), s4).
Proof.
  intros Hwf HT Hh Hf Hl Hname Hio.
  destruct (supported_tag T HT) as [tag Htag].
  assert (location s h = Some (a, true)) as Hloc
    by (unfold location; by rewrite Hh).
  destruct (save_fresh_post s T tag h name v a l Hwf Htag Hloc Hl Hname Hio)
    as (s1 & Hsave & Hf1 & He1 & Hid1 & Hh1 & Hio1).
  rewrite Hh in Hh1.
  pose proof (closeFile_open_file s1 h a true Hh1) as Hclose.
  destruct Hwf as (Hid & _).
  destruct (openFile_existing (set_handles (delete h) s1) filename mode ver a)
    as (h' & s3 & Hopen & Hloc3 & Hobjs3 & Hid3 & Hio3);
    [cbn; lia | cbn; by rewrite Hf1 |].
  pose proof (load_against_reference V0 reinterpret s3 T h' name out Hid3)
    as Hload.
  rewrite (entry_location s3 h' name _ _ Hloc3) in Hload.
  rewrite (entry_at_objs _ s3 a name Hobjs3) in Hload.
  rewrite (entry_at_objs s1 (set_handles (delete h) s1) a name eq_refl)
    in Hload.
  rewrite He1, Htag, Hio3 in Hload. cbn [io_ok set_handles] in Hload.
  rewrite Hio1 in Hload. cbv zeta in Hload.
  rewrite as_type_same, overwrite_all in Hload
    by (by rewrite length_resize, Nat2N.id).
  destruct (run eng (load V0 T h' name out) s3) as [[r out'] s4] eqn:Hrun.
  cbn [fst] in Hload. simplify_eq. by eexists s1, _, h', s3, s4.
Qed.

Ltac old_or_new Hh Ho :=
  let H := fresh "H" in
  intros ? ? H;
  repeat (apply lookup_insert_Some in H as [[<- _] | [_ H]]; [lia |]);
  first [apply Hh in H | apply Ho in H]; lia.

(** A group is created once: [createGroup] under a writable location
    and a free name returns a handle to a new, empty group; a second
    [createGroup] with the same name throws the CreationError and
    changes nothing; [openGroup] with that name returns another handle
    to the same group, and the first handle stays valid. *)
Theorem createGroup_once (s : h5state) (parent : Z) (name : string) a l :
  wf s →
  location s parent = Some (a, true) →
  links_of s a = Some l →
  l !! name = None →
  ∃ g s1 ga,
    run eng (createGroup parent name) s = (Ok g, s1)
    ∧ location s1 g = Some (ga, true)
    ∧ links_of s1 ga = Some ∅
    ∧ wf s1
    ∧ run eng (createGroup parent name) s1
      = (Throw (runtime_error msg_create_group), s1)
    ∧ ∃ g' s2,
        run eng (openGroup parent name) s1 = (Ok g', s2)
        ∧ g' ≠ g
        ∧ location s2 g' = Some (ga, true)
        ∧ location s2 g = Some (ga, true).
Proof.
  intros Hwf Hloc Hl Hname.
  pose proof (location_lt s parent a true Hwf Hloc) as Hlt.
  pose proof (links_lt s a l Hwf Hl) as Hlta.
  destruct Hwf as (Hid & Hh & Ho).
  unfold createGroup, openGroup. cbn.
  unfold ref_H5Gcreate. rewrite Hloc, Hl, Hname. cbn.
  destruct (Z.ltb_spec (next_id s) 0); [lia |]. cbn.
  eexists (next_id s), _, (next_addr s). split; [reflexivity |].
  unfold ref_H5Gcreate, ref_H5Gopen, location, links_of in *. cbn. lookups.
  rewrite Hloc. cbn. lookups. cbn. lookups. cbn.
  destruct (Z.ltb_spec (next_id s + 1) 0); [lia |]. cbn. lookups.
  repeat split; try done; cbn; try lia.
  - unfold map_Forall; cbn; old_or_new Hh Ho.
  - unfold map_Forall; cbn; old_or_new Hh Ho.
  - eexists (next_id s + 1), _. split; [reflexivity |]. cbn. lookups.
    repeat split; try done; lia.
Qed.

(** A [load] that returns normally leaves the engine as it found it:
    the three descriptors it opened are closed again and nothing stored
    has changed, so the same [load] can be repeated. *)
Theorem load_success_restores (s s' : h5state) (T : cxx_type) (h : Z)
    (name : string) (data out : list V) :
  wf s →
  run eng (load V0 T h name data) s = ((Ok tt, out), s') →
  handles s' = handles s ∧ objs s' = objs s ∧ files s' = files s
  ∧ io_ok s' = io_ok s.
Proof.
  intros (Hid & Hh & _).
  assert (∀ k, 0 ≤ k → handles s !! (next_id s + k) = None) as Hfresh.
  { intros k Hk. destruct (handles s !! (next_id s + k)) eqn:Hn; [| done].
    apply Hh in Hn. lia. }
  pose proof (Hfresh 0 ltac:(lia)) as H0. rewrite Z.add_0_r in H0.
  pose proof (Hfresh 1 ltac:(lia)) as H1.
  pose proof (Hfresh 2 ltac:(lia)) as H2.
  replace (next_id s + 2) with (next_id s + 1 + 1) in H2 by lia.
  unfold load. cbn. unfold ref_H5Dopen.
  destruct (find_entry s h name) as [[d rw]|] eqn:Hf; cbn; [| done].
  destruct (find_entry_stored s h name d rw Hf) as [[[ty dims] contents] Hst].
  destruct (Z.ltb_spec (next_id s) 0); [lia |]. cbn.
  assert (Hnd : negb (Z.of_nat (length dims) =? 1)
                = match dims with [_] => false | _ => true end).
  { destruct dims as [| ? [| ? ?]]; try done.
    cbn [length].
    destruct (Z.eqb_spec (Z.of_nat (S (S (length l)))) 1); [lia | done]. }
  unfold stored in Hst.
  repeat (unfold ref_H5Dget_type, ref_H5Dget_space, dataset_of, stored,
            ref_H5Sget_simple_extent_ndims; cbn; lookups; rewrite ?Hst; cbn).
  rewrite Hnd. clear Hnd.
  destruct dims as [| size [| ? ?]]; [done | | done].
  cbn. unfold ref_H5Sget_simple_extent_dims. cbn. lookups. cbn.
  change (Z.of_nat 1 <? 0) with false.
  destruct (HDF5Type_type T) as [tag | e]; [| done].
  cbn. unfold ref_H5Dread, dataset_of, stored. cbn. lookups. rewrite Hst.
  destruct (io_ok s) eqn:Hio; cbn; unfold close_id; cbn; lookups; cbn;
    lookups; cbn; lookups; cbn; [| done].
  intros [= <- <-]. cbn. repeat split; try done.
  rewrite (delete_insert_ne _ (next_id s)) by lia.
  rewrite (delete_insert_ne _ (next_id s)) by lia.
  rewrite (delete_insert_id _ _ _ H0).
  rewrite (delete_insert_ne _ (next_id s + 1)) by lia.
  rewrite (delete_insert_id _ _ _ H1).
  by rewrite (delete_insert_id _ _ _ H2).
Qed.

(** The property list [createFile] makes for HDF5_VERSION_LATEST is
    never closed: after the file is created and closed again, the open
    identifiers are those from before plus that property list. *)
Theorem version_plist_stays_open (s : h5state) (filename : string) :
  wf s →
  filename ≠ "" →
  ∃ h s1 s2,
    run eng (createFile filename HDF5_VERSION_LATEST) s = (Ok h, s1)
    ∧ run eng (closeFile h) s1 = (Ok tt, s2)
    ∧ handles s2 = <[next_id s := HPlist true]> (handles s).
Proof.
  intros Hwf Hname. pose proof (fresh_id s Hwf) as Hfresh.
  destruct Hwf as (Hid & Hh & _).
  assert (handles s !! (next_id s + 1) = None) as Hfresh'.
  { destruct (handles s !! (next_id s + 1)) eqn:Hn; [| done].
    apply Hh in Hn. lia. }
  unfold createFile, closeFile. cbn.
  unfold ref_H5Pset_libver_bounds, ref_H5Fcreate, fapl_ok. cbn. lookups. cbn.
  rewrite decide_False by done. cbn.
  case_decide; cbn; lookups; cbn.
  all: destruct (Z.ltb_spec (next_id s + 1) 0); [lia |]; cbn.
  all: eexists _, _, _; split; [reflexivity |]; cbn.
  all: unfold close_id; cbn; lookups; cbn.
  all: split; [reflexivity |]; cbn.
  all: rewrite delete_insert_id; [by rewrite insert_insert_eq |].
  all: by rewrite !lookup_insert_ne by lia.
Qed.

End MoreReference.

(** ** The further properties at sample inputs *)

Module MoreFacts.
Import Sample.

Lemma load_early_throw_keeps_data_witness :
  (run engine (load 0 t_int 0 "m" [4]) (st_data true)).1
  = (Throw (runtime_error msg_not_1d), [4])
  ∧ has_message msg_open_dataset (runtime_error msg_not_1d)
    || has_message msg_not_1d (runtime_error msg_not_1d)
    || has_message msg_shape (runtime_error msg_not_1d) = true
  ∧ [4] = [4].
Proof.
  assert ((run engine (load 0 t_int 0 "m" [4]) (st_data true)).1
          = (Throw (runtime_error msg_not_1d), [4])) as Hrun by reflexivity.
  split; [exact Hrun |]. split; [reflexivity |].
  exact (load_early_throw_keeps_data engine 0 (st_data true) t_int 0 "m"
           [4] [4] (runtime_error msg_not_1d) Hrun eq_refl).
Defined.

Lemma save_success_calls_witness :
  (run engine (save t_int 0 "x" [1; 2; 3]) st_open).1 = Ok tt
  ∧ ∃ tag dataspace dataset status,
      HDF5Type_type t_int = Ok tag
      ∧ trace engine (save t_int 0 "x" [1; 2; 3]) st_open
        = [ Ev (H5Screate_simple 1 [N.of_nat (length [1; 2; 3])] None)
               dataspace;
            Ev (H5Dcreate 0 "x" tag dataspace
                  H5P_DEFAULT H5P_DEFAULT H5P_DEFAULT) dataset;
            Ev (H5Dwrite dataset tag H5S_ALL H5S_ALL H5P_DEFAULT [1; 2; 3])
               status ]
      ∧ 0 ≤ dataspace ∧ 0 ≤ dataset ∧ 0 ≤ status.
Proof.
  split; [reflexivity |].
  exact (save_success_calls engine st_open t_int 0 "x" [1; 2; 3] eq_refl).
Defined.

Lemma save_taken_name_witness :
  wf (st_data true)
  ∧ HDF5Type_type t_int = Ok H5T_NATIVE_INT
  ∧ location (st_data true) 0 = Some (0%N, true)
  ∧ links_of (st_data true) 0%N
    = Some (<[ "x" := 2%N ]> {[ "m" := 1%N ]})
  ∧ is_Some ((<[ "x" := 2%N ]> {[ "m" := 1%N ]} : gmap string N) !! "x")
  ∧ ∃ s', run engine (save t_int 0 "x" [1]) (st_data true)
          = (Throw (runtime_error msg_create_dataset), s')
          ∧ classify (runtime_error msg_create_dataset) = Some CreationError
          ∧ files s' = files (st_data true)
          ∧ objs s' = objs (st_data true)
          ∧ handles s' = handles (st_data true)
          ∧ entry s' 0 "x" = entry (st_data true) 0 "x".
Proof.
  assert (is_Some ((<[ "x" := 2%N ]> {[ "m" := 1%N ]} : gmap string N)
                   !! "x")) as Hx by (by exists 2%N).
  split; [exact (SampleFacts.wf_st_data true) |].
  do 3 (split; [reflexivity |]). split; [exact Hx |].
  exact (save_taken_name 0 (λ _ _ l, l) (st_data true) t_int H5T_NATIVE_INT
           0 "x" [1] 0%N true _ (SampleFacts.wf_st_data true)
           eq_refl eq_refl eq_refl Hx).
Defined.

Lemma save_failed_write_leaves_entry_witness :
  wf (st_data false)
  ∧ HDF5Type_type t_int = Ok H5T_NATIVE_INT
  ∧ location (st_data false) 0 = Some (0%N, true)
  ∧ links_of (st_data false) 0%N
    = Some (<[ "x" := 2%N ]> {[ "m" := 1%N ]})
  ∧ (<[ "x" := 2%N ]> {[ "m" := 1%N ]} : gmap string N) !! "y" = None
  ∧ io_ok (st_data false) = false
  ∧ ∃ s', run engine (save t_int 0 "y" [1; 2]) (st_data false)
          = (Throw (runtime_error msg_write), s')
          ∧ classify (runtime_error msg_write) = Some WriteError
          ∧ handles s' = handles (st_data false)
          ∧ entry s' 0 "y"
            = Some (H5T_NATIVE_INT, [N.of_nat (length [1; 2])],
                    replicate (length [1; 2]) 0).
Proof.
  split; [exact (SampleFacts.wf_st_data false) |].
  do 5 (split; [reflexivity |]).
  exact (save_failed_write_leaves_entry 0 (λ _ _ l, l) (st_data false) t_int
           H5T_NATIVE_INT 0 "y" [1; 2] 0%N _ (SampleFacts.wf_st_data false)
           eq_refl eq_refl eq_refl eq_refl eq_refl).
Defined.

Lemma saved_data_survives_reopen_witness :
  wf st_open
  ∧ listed_supported t_int = true
  ∧ handles st_open !! 0 = Some (HFile 0%N true)
  ∧ files st_open !! "a.h5" = Some 0%N
  ∧ links_of st_open 0%N = Some ∅
  ∧ (∅ : gmap string N) !! "x" = None
  ∧ io_ok st_open = true
  ∧ ∃ s1 s2 h' s3 s4,
      run engine (save t_int 0 "x" [1; -2; 3]) st_open = (Ok tt, s1)
      ∧ run engine (closeFile 0) s1 = (Ok tt, s2)
      ∧ run engine (openFile "a.h5" READ_ONLY HDF5_VERSION_LATEST) s2
        = (Ok h', s3)
      ∧ run engine (load 0 t_int h' "x" []) s3 = ((Ok tt, [1; -2; 3]), s4).
Proof.
  split; [exact SampleFacts.wf_st_open |].
  do 6 (split; [reflexivity |]).
  exact (saved_data_survives_reopen 0 (λ _ _ l, l) st_open t_int 0 "a.h5" "x"
           [1; -2; 3] [] READ_ONLY HDF5_VERSION_LATEST 0%N ∅
           SampleFacts.wf_st_open eq_refl eq_refl eq_refl eq_refl eq_refl
           eq_refl).
Defined.

Lemma createGroup_once_witness :
  wf st_open
  ∧ location st_open 0 = Some (0%N, true)
  ∧ links_of st_open 0%N = Some ∅
  ∧ (∅ : gmap string N) !! "g" = None
  ∧ ∃ g s1 ga,
      run engine (createGroup 0 "g") st_open = (Ok g, s1)
      ∧ location s1 g = Some (ga, true)
      ∧ links_of s1 ga = Some ∅
      ∧ wf s1
      ∧ run engine (createGroup 0 "g") s1
        = (Throw (runtime_error msg_create_group), s1)
      ∧ ∃ g' s2,
          run engine (openGroup 0 "g") s1 = (Ok g', s2)
          ∧ g' ≠ g
          ∧ location s2 g' = Some (ga, true)
          ∧ location s2 g = Some (ga, true).
Proof.
  split; [exact SampleFacts.wf_st_open |].
  do 3 (split; [reflexivity |]).
  exact (createGroup_once 0 (λ _ _ l, l) st_open 0 "g" 0%N ∅
           SampleFacts.wf_st_open eq_refl eq_refl eq_refl).
Defined.

Lemma load_success_restores_witness :
  let r := run engine (load 0 t_int 0 "x" [5]) (st_data true) in
  wf (st_data true)
  ∧ r = ((Ok tt, [7; 8; 9]), r.2)
  ∧ handles r.2 = handles (st_data true)
  ∧ objs r.2 = objs (st_data true)
  ∧ files r.2 = files (st_data true)
  ∧ io_ok r.2 = io_ok (st_data true).
Proof.
  intros r.
  assert (r = ((Ok tt, [7; 8; 9]), r.2)) as Hrun by reflexivity.
  split; [exact (SampleFacts.wf_st_data true) |]. split; [exact Hrun |].
  exact (load_success_restores 0 (λ _ _ l, l) (st_data true) r.2 t_int 0
           "x" [5] [7; 8; 9] (SampleFacts.wf_st_data true) Hrun).
Defined.

Lemma version_plist_stays_open_witness :
  wf st_open
  ∧ "b.h5" ≠ ""
  ∧ ∃ h s1 s2,
      run engine (createFile "b.h5" HDF5_VERSION_LATEST) st_open = (Ok h, s1)
      ∧ run engine (closeFile h) s1 = (Ok tt, s2)
      ∧ handles s2 = <[next_id st_open := HPlist true]> (handles st_open).
Proof.
  assert ("b.h5" ≠ "") as Hne by discriminate.
  split; [exact SampleFacts.wf_st_open |]. split; [exact Hne |].
  exact (version_plist_stays_open 0 (λ _ _ l, l) st_open "b.h5"
           SampleFacts.wf_st_open Hne).
Defined.

End MoreFacts.

(** * [load] with the exits of [resize] *)

Section ResizeAnyEngine.
Context {V E : Type} (eng : @handler V E) (V0 : V).
Context (size_t_bits max_size : N) (alloc_ok : N → bool).

Ltac call_step :=
  lazymatch goal with
  | |- context [eng ?X ?c ?s] =>
      let x := fresh "x" in
      let s' := fresh "s" in
      destruct (eng X c s) as [x s'] eqn:?; cbn
  end.

Ltac if_step :=
  lazymatch goal with
  | |- context [run eng (if ?a <? 0 then _ else _)] =>
      destruct (Z.ltb_spec a 0); cbn
  end.

Ltac account_ids :=
  repeat match goal with
    | |- context [classify ?e] =>
        let k := eval vm_compute in (classify e) in
        change (classify e) with k
    | |- context [has_message ?m ?e] =>
        let b := eval vm_compute in (has_message m e) in
        change (has_message m e) with b
    end;
  cbn; unfold nonneg_id;
  repeat match goal with
    | |- context [?a <? 0] => destruct (Z.ltb_spec a 0); try lia
    end;
  cbn; repeat (case_decide; try lia; cbn); try done.

Ltac close_account :=
  first [ solve [account_ids]
        | account_ids; split; [lia | solve [account_ids]] ].

(** What [load] leaves open, exit by exit: nothing when it returns or
    throws the open, shape-query or read error; the dataset it opened
    (with the datatype and dataspace it obtained) when it throws the
    not-one-dimensional error, when the type mapping throws, and when
    [resize] throws. *)
Theorem load_exits_outstanding (s : E) (T : cxx_type) (h : Z)
    (name : string) (data : list V) :
  let dataset := (eng _ (H5Dopen h name H5P_DEFAULT) s).1 in
  let p := load_with_resize V0 size_t_bits max_size alloc_ok T h name data in
  let left_open := 0 ≤ dataset ∧ last (outstanding (trace eng p s)) = Some dataset in
  match (run eng p s).1.1 with
  | Returned => outstanding (trace eng p s) = []
  | Thrown e =>
      match classify e with
      | Some OpenError | Some ReadError => outstanding (trace eng p s) = []
      | Some ShapeError =>
          if has_message msg_not_1d e then left_open
          else outstanding (trace eng p s) = []
      | Some ConfigurationError => left_open
      | _ => False
      end
  | ResizeThrown _ => left_open
  end.
Proof.
  unfold load_with_resize, outstanding. cbn. call_step.
  if_step; [solve [account_ids] |].
  do 3 call_step.
  destruct (x2 =? 1); cbn; [| solve [close_account]].
  call_step. destruct x3 as [status written]. cbn.
  if_step; [do 3 call_step; solve [account_ids] |].
  destruct (vector_resize _ _ _ _ _) as [buf0 | r]; cbn;
    [| solve [close_account]].
  destruct T; cbn; try solve [close_account].
  all: call_step; destruct x3 as [status' buf]; cbn.
  all: do 3 call_step.
  all: destruct (Z.ltb_spec status' 0); cbn; solve [account_ids].
Qed.

End ResizeAnyEngine.

Section ResizeReference.
Context {V : Type} (V0 : V).
Context (reinterpret : native_tag → native_tag → list V → list V).
Context (size_t_bits max_size : N) (alloc_ok : N → bool).

Local Abbreviation eng := (ref_engine V0 reinterpret).
Local Abbreviation load' :=
  (load_with_resize V0 size_t_bits max_size alloc_ok).

Ltac finds :=
  repeat first
    [ rewrite lookup_insert_eq
    | rewrite lookup_insert_ne by lia
    | rewrite lookup_delete_ne by lia ].

(** A count that fits [size_t], is within [max_size()] and can be
    allocated is the count [resize] gives the vector. *)
Lemma vector_resize_fits (size : N) (data : list V) :
  (size < 2 ^ size_t_bits)%N →
  (size ≤ max_size)%N →
  alloc_ok size = true →
  vector_resize V0 max_size alloc_ok (to_size_t size_t_bits size) data
  = inl (resize V0 (N.to_nat size) data).
Proof.
  intros Hfit Hmax Halloc. unfold vector_resize, to_size_t.
  rewrite N.mod_small by done.
  destruct (size <=? N.of_nat (length data))%N; [done |].
  destruct (N.ltb_spec max_size size); [lia |]. by rewrite Halloc.
Qed.

Lemma load_with_resize_reference (s : h5state) (T : cxx_type) (h : Z)
    (name : string) (data : list V) :
  0 ≤ next_id s →
  (run eng (load' T h name data) s).1 =
  match entry s h name with
  | None => (Thrown (runtime_error msg_open_dataset), data)
  | Some (ty, dims, contents) =>
      match dims with
      | [size] =>
          match vector_resize V0 max_size alloc_ok
                  (to_size_t size_t_bits size) data with
          | inr r => (ResizeThrown r, data)
          | inl buf =>
              match HDF5Type_type T with
              | Throw e => (Thrown e, buf)
              | Ok tag =>
                  if io_ok s
                  then (Returned,
                        overwrite buf (as_type reinterpret ty tag contents))
                  else (Thrown (runtime_error msg_read), buf)
              end
          end
      | _ => (Thrown (runtime_error msg_not_1d), data)
      end
  end.
Proof.
  intros Hid. unfold load_with_resize, entry. cbn. unfold ref_H5Dopen.
  destruct (find_entry s h name) as [[d rw]|] eqn:Hf; cbn; [| done].
  destruct (find_entry_stored s h name d rw Hf) as [[[ty dims] contents] Hst].
  rewrite Hst.
  destruct (Z.ltb_spec (next_id s) 0); [lia |]. cbn.
  assert (Hnd : negb (Z.of_nat (length dims) =? 1)
                = match dims with [_] => false | _ => true end).
  { destruct dims as [| ? [| ? ?]]; try done.
    cbn [length].
    destruct (Z.eqb_spec (Z.of_nat (S (S (length l)))) 1); [lia | done]. }
  unfold stored in Hst.
  repeat (unfold ref_H5Dget_type, ref_H5Dget_space, dataset_of, stored,
            ref_H5Sget_simple_extent_ndims; cbn; finds; rewrite ?Hst; cbn).
  rewrite Hnd. clear Hnd.
  destruct dims as [| size [| ? ?]]; [done | | done].
  cbn. unfold ref_H5Sget_simple_extent_dims. cbn. finds. cbn.
  change (Z.of_nat 1 <? 0) with false. cbv iota.
  destruct (vector_resize V0 max_size alloc_ok (to_size_t size_t_bits size)
              data) as [buf | r]; [| done].
  destruct (HDF5Type_type T) as [tag | e]; [| done].
  cbn. unfold ref_H5Dread, dataset_of, stored. cbn. finds. rewrite Hst.
  destruct (io_ok s); cbn; unfold close_id; cbn; finds; cbn; finds; cbn;
    finds; done.
Qed.

(** C2: [load] fails with the OpenError when no entry of that name
    exists, fails with the not-one-dimensional ShapeError and leaves
    [outData] alone when the stored shape has any rank other than 1,
    and otherwise -- for a declared count that fits [size_t], is within
    [max_size()] and can be allocated -- leaves in [outData] a vector
    of exactly the declared element count, filled from the stored
    contents as seen under the tag of the element type. *)
Theorem load_contract (s : h5state) (T : cxx_type) (h : Z) (name : string)
    (data : list V) :
  wf s →
  let result := (run eng (load' T h name data) s).1 in
  match entry s h name with
  | None => ∃ e, result = (Thrown e, data) ∧ classify e = Some OpenError
  | Some (ty, dims, contents) =>
      match dims with
      | [size] =>
          (size < 2 ^ size_t_bits)%N →
          (size ≤ max_size)%N →
          alloc_ok size = true →
          ∀ tag, HDF5Type_type T = Ok tag → io_ok s = true →
            result = (Returned,
                      overwrite (resize V0 (N.to_nat size) data)
                                (as_type reinterpret ty tag contents))
            ∧ length result.2 = N.to_nat size
      | _ => ∃ e, result = (Thrown e, data)
                  ∧ what e = msg_not_1d ∧ classify e = Some ShapeError
      end
  end.
Proof.
  intros (Hid & _) result. subst result.
  rewrite (load_with_resize_reference s T h name data Hid).
  destruct (entry s h name) as [[[ty dims] contents]|]; [| by eauto].
  destruct dims as [| size [| ? ?]]; [by eauto | | by eauto].
  intros Hfit Hmax Halloc tag -> ->.
  rewrite (vector_resize_fits size data Hfit Hmax Halloc).
  split; [done |].
  cbn. by rewrite length_overwrite, length_resize.
Qed.

(** [load] never compares the stored tag with the tag of [T]: an entry
    written under one tag and loaded as another type is read without
    any error, and the caller receives the values as the engine
    presents them under the other tag (for a declared count [resize]
    can reach). *)
Theorem load_ignores_stored_type (s : h5state) (T : cxx_type) (h : Z)
    (name : string) (data contents : list V) (ty tag : native_tag)
    (size : N) :
  wf s →
  entry s h name = Some (ty, [size], contents) →
  (size < 2 ^ size_t_bits)%N →
  (size ≤ max_size)%N →
  alloc_ok size = true →
  HDF5Type_type T = Ok tag →
  tag ≠ ty →
  io_ok s = true →
  (run eng (load' T h name data) s).1
  = (Returned, overwrite (resize V0 (N.to_nat size) data)
                         (reinterpret ty tag contents)).
Proof.
  intros (Hid & _) He Hfit Hmax Halloc HT Hne Hio.
  rewrite (load_with_resize_reference s T h name data Hid).
  rewrite He, (vector_resize_fits size data Hfit Hmax Halloc), HT, Hio.
  unfold as_type. by rewrite decide_False by done.
Qed.

End ResizeReference.

(** ** The list of the specification and the table of the header *)

(** C5, as stated, fails at [signed char]: it is the 8-bit signed
    integer of the specification's list, and the mapping throws for it
    instead of returning a tag. *)
Lemma HDF5Type_signed_char_unmapped :
  spec_listed t_signed_char = true
  ∧ HDF5Type_type t_signed_char = Throw (runtime_error msg_not_implemented)
  ∧ ¬ (∀ T, spec_listed T = true → ∃ tag, HDF5Type_type T = Ok tag).
Proof.
  split; [done |]. split; [done |].
  intros H. destruct (H t_signed_char eq_refl) as [tag Htag]. discriminate.
Qed.

(** ** [load] with the exits of [resize] at sample inputs *)

Module ResizeFacts.
Import Sample.

Abbreviation load64 := (load_with_resize 0 size_t_bits max_size alloc_ok).

(** A declared count above [max_size()] ends [load] by
    [std::length_error], one the allocator has no room for by
    [std::bad_alloc]; the vector is untouched and the three descriptors
    stay open. *)
Example load_count_too_large :
  (run engine (load64 t_long 0 "huge" [1]) st_huge).1
  = (ResizeThrown std_length_error, [1])
  ∧ (run engine (load64 t_long 0 "big" [1]) st_huge).1
    = (ResizeThrown std_bad_alloc, [1])
  ∧ outstanding (trace engine (load64 t_long 0 "huge" [1]) st_huge)
    = [3; 2; 1].
Proof. by vm_compute. Qed.

Lemma load_contract_witness :
  wf (st_data true)
  ∧ (3 < 2 ^ size_t_bits)%N
  ∧ (3 ≤ max_size)%N
  ∧ alloc_ok 3 = true
  ∧ (run engine (load64 t_int 0 "x" [5]) (st_data true)).1
    = (Returned, [7; 8; 9])
  ∧ ∃ e, (run engine (load64 t_int 0 "m" [5]) (st_data true)).1
         = (Thrown e, [5]) ∧ what e = msg_not_1d.
Proof.
  assert (3 < 2 ^ size_t_bits)%N as Hfit by reflexivity.
  assert (3 ≤ max_size)%N as Hmax by discriminate.
  split; [exact (SampleFacts.wf_st_data true) |].
  split; [exact Hfit |]. split; [exact Hmax |]. split; [reflexivity |].
  split.
  - pose proof (load_contract 0 (λ _ _ l, l) size_t_bits max_size alloc_ok
                  (st_data true) t_int 0 "x" [5]
                  (SampleFacts.wf_st_data true)) as H.
    change (entry (st_data true) 0 "x")
      with (Some (H5T_NATIVE_INT, [3%N], [7; 8; 9])) in H.
    cbv zeta beta iota in H.
    destruct (H Hfit Hmax eq_refl H5T_NATIVE_INT eq_refl eq_refl) as [Hr _].
    exact Hr.
  - pose proof (load_contract 0 (λ _ _ l, l) size_t_bits max_size alloc_ok
                  (st_data true) t_int 0 "m" [5]
                  (SampleFacts.wf_st_data true)) as H.
    change (entry (st_data true) 0 "m")
      with (Some (H5T_NATIVE_INT, [2%N; 3%N], [1; 2; 3; 4; 5; 6])) in H.
    cbv zeta beta iota in H.
    destruct H as (e & Hr & Hm & _). exists e. by split.
Defined.

Lemma load_ignores_stored_type_witness :
  wf (st_data true)
  ∧ entry (st_data true) 0 "x" = Some (H5T_NATIVE_INT, [3%N], [7; 8; 9])
  ∧ (3 < 2 ^ size_t_bits)%N
  ∧ (3 ≤ max_size)%N
  ∧ alloc_ok 3 = true
  ∧ HDF5Type_type t_double = Ok H5T_NATIVE_DOUBLE
  ∧ H5T_NATIVE_DOUBLE ≠ H5T_NATIVE_INT
  ∧ io_ok (st_data true) = true
  ∧ (run engine (load64 t_double 0 "x" []) (st_data true)).1
    = (Returned, [7; 8; 9]).
Proof.
  assert (3 < 2 ^ size_t_bits)%N as Hfit by reflexivity.
  assert (3 ≤ max_size)%N as Hmax by discriminate.
  assert (H5T_NATIVE_DOUBLE ≠ H5T_NATIVE_INT) as Hne by discriminate.
  split; [exact (SampleFacts.wf_st_data true) |].
  split; [reflexivity |]. split; [exact Hfit |]. split; [exact Hmax |].
  do 2 (split; [reflexivity |]). split; [exact Hne |].
  split; [reflexivity |].
  exact (load_ignores_stored_type 0 (λ _ _ l, l) size_t_bits max_size alloc_ok
           (st_data true) t_double 0 "x" [] [7; 8; 9]
           H5T_NATIVE_INT H5T_NATIVE_DOUBLE 3%N
           (SampleFacts.wf_st_data true) eq_refl Hfit Hmax eq_refl eq_refl
           Hne eq_refl).
Defined.

End ResizeFacts.
